(** * import-svg-to-ufo: a shallow embedding of [tools/import-svg-to-ufo.py]

    The script converts one SVG outline into one glyph of a UFO font:
    it reads a YAML mapping, the outline's declared size and the font's
    metadata, computes the advance width and the placement transform,
    has the libraries produce the GLIF text, writes it, and registers the
    glyph in [glyphs/contents.plist] and [public.glyphOrder] when its
    name is new.

    Python values are modelled as the script has them: numbers as a
    tagged union of unbounded integers and IEEE binary64 floats, text as
    [string], dictionaries as [gmap], lists with positional update.
    Exceptions are an explicit result type, and the file system and the
    standard output are threaded through a state-and-exception monad.
    The libraries the script calls (yaml, ElementTree, ufoLib, fontTools)
    are a record of operations the development is parametric in. *)

From Stdlib Require Import ZArith String Ascii List Floats Lia.
From stdpp Require Import gmap strings list.
Import ListNotations.
Local Open Scope Z_scope.

(* ===================================================================== *)
(** ** Exceptions and results *)
(* ===================================================================== *)

(** The exceptions a run can end with.  [LibraryError] stands for any
    other exception a library call raises. *)
Inductive exn : Type :=
| IOError (path : string)
| YAMLError
| ParseError
| KeyError (key : string)
| ValueError
| OverflowError
| AttributeError (attr : string)
| IndexError
| ArgumentTypeError (msg arg : string)
| UFOLibError (msg : string)
| LibraryError (msg : string).

Inductive res (A : Type) : Type :=
| Ok (a : A)
| Raise (e : exn).
Arguments Ok {A} a.
Arguments Raise {A} e.

Definition res_bind {A B} (c : res A) (k : A -> res B) : res B :=
  match c with
  | Ok a => k a
  | Raise e => Raise e
  end.

Declare Scope res_scope.
Delimit Scope res_scope with res.
Bind Scope res_scope with res.
Notation "'let*' x ':=' c 'in' k" := (res_bind c (fun x => k))
  (at level 10, x name, c at level 100, k at level 200) : res_scope.

(** [d[k]] on a dictionary key that may be absent. *)
Definition getitem {A} (key : string) (o : option A) : res A :=
  match o with
  | Some a => Ok a
  | None => Raise (KeyError key)
  end.

(** [getattr(obj, name)] on an attribute that may be unset. *)
Definition getattr {A} (attr : string) (o : option A) : res A :=
  match o with
  | Some a => Ok a
  | None => Raise (AttributeError attr)
  end.

(** [l[i]] on a list. *)
Definition list_getitem {A} (l : list A) (i : nat) : res A :=
  match l !! i with
  | Some a => Ok a
  | None => Raise IndexError
  end.

(* ===================================================================== *)
(** ** Numbers *)
(* ===================================================================== *)

(** A Python number: an [int] of any size or a [float] (binary64). *)
Inductive pynum : Type :=
| PyInt (z : Z)
| PyFloat (f : float).

(** Nearest binary64 value of an integer, ties to even. *)
Definition Z2float (z : Z) : float :=
  SF2Prim (binary_normalize prec emax z 0 false).

(** The conversion Python applies to the [int] operand of a mixed
    operation; an integer beyond the float range raises. *)
Definition int_to_float (z : Z) : res float :=
  let f := Z2float z in
  if is_infinity f then Raise OverflowError else Ok f.

(** [float.__trunc__]: the integer part, towards zero. *)
Definition float_trunc (f : float) : res Z :=
  match Prim2SF f with
  | S754_zero _ => Ok 0
  | S754_finite s m e =>
      let a := Z.shiftl (Z.pos m) e in
      Ok (if s then - a else a)
  | S754_infinity _ => Raise OverflowError
  | S754_nan => Raise ValueError
  end.

(** [int(x)] on a number. *)
Definition py_int (x : pynum) : res Z :=
  match x with
  | PyInt z => Ok z
  | PyFloat f => float_trunc f
  end.

(** [x + y] on numbers: integer addition on two ints, float addition as
    soon as one operand is a float. *)
Definition py_add (x y : pynum) : res pynum :=
  match x, y with
  | PyInt a, PyInt b => Ok (PyInt (a + b))
  | PyFloat a, PyInt b =>
      (let* b' := int_to_float b in Ok (PyFloat (a + b')%float))%res
  | PyInt a, PyFloat b =>
      (let* a' := int_to_float a in Ok (PyFloat (a' + b)%float))%res
  | PyFloat a, PyFloat b => Ok (PyFloat (a + b)%float)
  end.

(** [x == y] on numbers: an int and a float compare by value. *)
Definition py_eqb (x y : pynum) : bool :=
  match x, y with
  | PyInt a, PyInt b => Z.eqb a b
  | PyFloat a, PyFloat b => PrimFloat.eqb a b
  | PyFloat a, PyInt b | PyInt b, PyFloat a =>
      match Prim2SF a with
      | S754_zero _ => Z.eqb b 0
      | S754_finite s m e =>
          let v := if s then Z.neg m else Z.pos m in
          if (0 <=? e)%Z then Z.eqb b (Z.shiftl v e)
          else Z.eqb (Z.shiftl b (- e)) v
      | _ => false
      end
  end.

(* ===================================================================== *)
(** ** Strings *)
(* ===================================================================== *)

(** [str.isspace] on one ASCII character. *)
Definition is_space (c : ascii) : bool :=
  let n := nat_of_ascii c in
  ((n =? 32) || ((9 <=? n) && (n <=? 13)) || ((28 <=? n) && (n <=? 31)))%nat.

Definition is_empty (s : string) : bool :=
  match s with
  | EmptyString => true
  | String _ _ => false
  end.

(** Whether every character of a text passes a test. *)
Fixpoint str_forall (P : ascii -> bool) (s : string) : bool :=
  match s with
  | EmptyString => true
  | String c s' => P c && str_forall P s'
  end.

(** The last character of a text. *)
Fixpoint str_last (s : string) : option ascii :=
  match s with
  | EmptyString => None
  | String c s' =>
      match str_last s' with
      | Some x => Some x
      | None => Some c
      end
  end.

(** [s.startswith(p)]. *)
Fixpoint startswith (p s : string) : bool :=
  match p, s with
  | EmptyString, _ => true
  | String _ _, EmptyString => false
  | String a p', String b s' => Ascii.eqb a b && startswith p' s'
  end.

(** [s.replace(old, new)] for a non-empty [old]: occurrences are found
    from the left and do not overlap.  [skip] counts the characters of
    a matched occurrence still to be dropped. *)
Fixpoint replace_from (old new : string) (skip : nat) (s : string) : string :=
  match s with
  | EmptyString => EmptyString
  | String c s' =>
      match skip with
      | S k => replace_from old new k s'
      | O =>
          if startswith old s
          then new +:+ replace_from old new (Nat.pred (String.length old)) s'
          else String c (replace_from old new 0 s')
      end
  end.

Definition str_replace (old new s : string) : string :=
  replace_from old new 0 s.

(** Whether "px" occurs in a text. *)
Fixpoint contains_px (s : string) : bool :=
  match s with
  | EmptyString => false
  | String _ s' => startswith "px" s || contains_px s'
  end.

(** [s.split()]: the maximal runs of non-space characters. *)
Fixpoint split_from (tok : string) (s : string) : list string :=
  match s with
  | EmptyString => if is_empty tok then [] else [tok]
  | String c s' =>
      if is_space c
      then (if is_empty tok then split_from EmptyString s'
            else tok :: split_from EmptyString s')
      else split_from (tok +:+ String c EmptyString) s'
  end.

Definition str_split (s : string) : list string :=
  split_from EmptyString s.

Fixpoint lstrip (s : string) : string :=
  match s with
  | EmptyString => EmptyString
  | String c s' => if is_space c then lstrip s' else s
  end.

Fixpoint rstrip (s : string) : string :=
  match s with
  | EmptyString => EmptyString
  | String c s' =>
      let r := rstrip s' in
      if is_space c && is_empty r then EmptyString else String c r
  end.

(** [s.strip()]. *)
Definition str_strip (s : string) : string := lstrip (rstrip s).

(** [os.path.basename] (POSIX): what follows the last slash. *)
Fixpoint basename_from (cur : string) (p : string) : string :=
  match p with
  | EmptyString => cur
  | String c p' =>
      if Ascii.eqb c "/" then basename_from EmptyString p'
      else basename_from (cur +:+ String c EmptyString) p'
  end.

Definition basename (p : string) : string := basename_from EmptyString p.

(** Index of the last dot of a string. *)
Fixpoint rfind_dot (s : string) : option nat :=
  match s with
  | EmptyString => None
  | String c s' =>
      match rfind_dot s' with
      | Some i => Some (S i)
      | None => if Ascii.eqb c "." then Some O else None
      end
  end.

Fixpoint all_dots (s : string) : bool :=
  match s with
  | EmptyString => true
  | String c s' => Ascii.eqb c "." && all_dots s'
  end.

(** [os.path.splitext(p)[0]] on a path without directory part: the
    text before the last dot, unless only dots precede it. *)
Definition splitext_root (p : string) : string :=
  match rfind_dot p with
  | Some d =>
      let root := String.substring 0 d p in
      if all_dots root then p else root
  | None => p
  end.

(** [split(arg)] of the script: commas count as blanks. *)
Definition split (arg : string) : list string :=
  str_split (str_replace "," " " arg).

(* ===================================================================== *)
(** ** Data *)
(* ===================================================================== *)

(** One entry of the [svgs] section of the mapping, by key; an absent
    key is [None]. *)
Record svg_entry : Type := {
  glyph_name : option string;
  left : option pynum;
  right : option pynum;
  base : option pynum;
  unicode : option string }.

(** The [font] section of the mapping. *)
Record font_section : Type := {
  ufo : option string;
  transform : option string;
  version : option Z }.

(** The mapping document [yaml.load] returns. *)
Record configuration : Type := {
  font : option font_section;
  svgs : option (gmap string svg_entry) }.

(** The root element of a parsed XML document. *)
Record element : Type := {
  tag : string;
  attrib : gmap string string }.

(** The attributes [readInfo] sets on the info object. *)
Record InfoObject : Type := {
  familyName : option string;
  unitsPerEm : option pynum }.

(** A property-list value, as in [lib.plist]. *)
#[local] Set Warnings "-register-all".
Inductive plist : Type :=
| PString (s : string)
| PInteger (z : Z)
| PArray (l : list plist)
| PDict (d : list (string * plist)).
#[local] Set Warnings "register-all".

(** The glyph object [svg2glif] hands to the serializer. *)
Record glyph : Type := {
  glyph_width : pynum;
  glyph_height : pynum;
  glyph_unicodes : option (list Z) }.

(** The command line as [parse_args] returns it; [config] has the
    default path when the option is not given. *)
Record options : Type := {
  infile : string;
  outfile : option string;
  config : string }.

(** What the script prints:
    - [Skip name]: "Skip: Configuration not found for svg : name";
    - [Convert family name out]: "[family] Convert name -> out";
    - [Add family glyph file]: "[family] Add glyph -> file". *)
Inductive message : Type :=
| Skip (name : string)
| Convert (family name out : string)
| Add (family glyph_name file : string).

(** The part of the machine a run reads and changes: the files by path,
    the paths that cannot be written, and the standard output. *)
Record world : Type := {
  files : gmap string string;
  readonly : gset string;
  stdout : list message }.

(** The libraries, one field per call of the script.  Operations that
    touch the disk take the files and, when they may write, return them:
    so do [writeLib] and the constructor [UFOWriter], which runs before
    the script knows whether the outline has an entry.  [readPlist] and
    [plist_dumps] are the reader and the writer of property lists on the
    content of a file.  [float_literal] and [int_literal] are the
    grammars of the built-in [float(s)] and [int(s, base)].  The glyph
    serializer gets the outline in place of the drawing callback that
    wraps it. *)
Record library : Type := {
  outline : Type;
  yaml_load : string -> res configuration;
  etree_parse : string -> res element;
  float_literal : string -> option float;
  int_literal : Z -> string -> option Z;
  readPlist : string -> res (gmap string string);
  plist_dumps : gmap string string -> string;
  UFOReader : string -> gmap string string -> res unit;
  UFOWriter : string -> gmap string string -> res unit * gmap string string;
  readInfo : string -> gmap string string -> res InfoObject;
  readLib : string -> gmap string string -> res (gmap string plist);
  writeLib : string -> gmap string plist -> gmap string string ->
             res unit * gmap string string;
  SVGPath_fromstring : string -> list pynum -> res outline;
  writeGlyphToString : string -> glyph -> outline -> Z -> res string }.

(* ===================================================================== *)
(** ** Programs: state and exceptions *)
(* ===================================================================== *)

Definition prog (A : Type) : Type := world -> res A * world.

Definition ret {A} (a : A) : prog A := fun w => (Ok a, w).

Definition raise {A} (e : exn) : prog A := fun w => (Raise e, w).

Definition bind {A B} (c : prog A) (k : A -> prog B) : prog B :=
  fun w =>
    match c w with
    | (Ok a, w') => k a w'
    | (Raise e, w') => (Raise e, w')
    end.

(** A pure computation that may raise. *)
Definition lift {A} (r : res A) : prog A := fun w => (r, w).

(** [try: c except: raise e] *)
Definition reraise {A} (c : prog A) (e : exn) : prog A :=
  fun w =>
    match c w with
    | (Ok a, w') => (Ok a, w')
    | (Raise _, w') => (Raise e, w')
    end.

Declare Scope prog_scope.
Delimit Scope prog_scope with prog.
Bind Scope prog_scope with prog.
Notation "'do' x <- c ;; k" := (bind c (fun x => k))
  (at level 10, x name, c at level 99, k at level 200) : prog_scope.

Definition with_files (w : world) (fs : gmap string string) : world :=
  {| files := fs; readonly := readonly w; stdout := stdout w |}.

(** [open(path).read()] *)
Definition read_file (path : string) : prog string :=
  fun w =>
    match files w !! path with
    | Some s => (Ok s, w)
    | None => (Raise (IOError path), w)
    end.

(** [open(path, 'w').write(s)], also the effect of
    [writePlistAtomically]: the whole content is replaced or, when the
    path cannot be written, nothing is. *)
Definition write_file (path s : string) : prog unit :=
  fun w =>
    if decide (path ∈ readonly w) then (Raise (IOError path), w)
    else (Ok tt, with_files w (<[path := s]> (files w))).

(** [print(...)] *)
Definition print (m : message) : prog unit :=
  fun w =>
    (Ok tt, {| files := files w; readonly := readonly w;
               stdout := stdout w ++ [m] |}).

(** A library call that reads the disk. *)
Definition lib_read {A} (f : gmap string string -> res A) : prog A :=
  fun w => (f (files w), w).

(** A library call that may write the disk. *)
Definition lib_write {A}
    (f : gmap string string -> res A * gmap string string) : prog A :=
  fun w => let (r, fs) := f (files w) in (r, with_files w fs).

(** [try: c except ValueError: raise e] *)
Definition except_ValueError {A} (c : res A) (e : exn) : res A :=
  match c with
  | Raise ValueError => Raise e
  | r => r
  end.

(** A list comprehension [[f(x) for x in l]] whose [f] may raise. *)
Fixpoint res_map {A B} (f : A -> res B) (l : list A) : res (list B) :=
  match l with
  | [] => Ok []
  | x :: l' =>
      (let* y := f x in let* ys := res_map f l' in Ok (y :: ys))%res
  end.

(* ===================================================================== *)
(** ** The script *)
(* ===================================================================== *)

Section Script.

Context (L : library).

(** The built-in [float(s)] on text: blanks around the literal are
    dropped, anything that is not a literal is a [ValueError]. *)
Definition py_float (s : string) : res float :=
  match float_literal L (str_strip s) with
  | Some f => Ok f
  | None => Raise ValueError
  end.

(** The built-in [int(s, 16)] on text. *)
Definition py_int16 (s : string) : res Z :=
  match int_literal L 16 s with
  | Some z => Ok z
  | None => Raise ValueError
  end.

Definition parseSvg (path : string) : prog element :=
  (do s <- read_file path ;; lift (etree_parse L s))%prog.

Definition getConfig (configFile : string) : prog configuration :=
  (do s <- read_file configFile ;; lift (yaml_load L s))%prog.

Definition svg2glif (svg name : string) (width height : pynum)
    (unicodes : option (list Z)) (tr : list pynum) (ver : Z) : res string :=
  let g := {| glyph_width := width; glyph_height := height;
              glyph_unicodes := unicodes |} in
  (let* o := SVGPath_fromstring L svg tr in
   writeGlyphToString L name g o ver)%res.

Definition transform_list (arg : string) : res (list pynum) :=
  except_ValueError
    (res_map (fun n => let* f := py_float n in Ok (PyFloat f))%res (split arg))
    (ArgumentTypeError "Invalid transformation matrix" arg).

Definition unicode_hex_list (arg : string) : res (list Z) :=
  except_ValueError
    (res_map py_int16 (split arg))
    (ArgumentTypeError "Invalid unicode hexadecimal value" arg).

(** Lines 107-109: the declared size of the outline. *)
Definition svg_dimension (svgObj : element) (key : string) : res float :=
  (let* a := getitem key (attrib svgObj !! key) in
   py_float (str_replace "px" " " a))%res.

(** Lines 129-132: the code points of the glyph, if the entry has any. *)
Definition unicodeVal (svg_config : svg_entry) : res (option (list Z)) :=
  match unicode svg_config with
  | Some u => (let* l := unicode_hex_list u in Ok (Some l))%res
  | None => Ok None
  end.

(** Line 133: the advance width. *)
Definition glyphWidth (width : float) (svg_config : svg_entry) : res pynum :=
  (let* l := getitem "left" (left svg_config) in
   let* l := py_int l in
   let* a := py_add (PyFloat width) (PyInt l) in
   let* r := getitem "right" (right svg_config) in
   let* r := py_int r in
   py_add a (PyInt r))%res.

(** Lines 150-152: the baseline offset, 0 unless the entry has one. *)
Definition base_offset (svg_config : svg_entry) : res Z :=
  match base svg_config with
  | Some b => py_int b
  | None => Ok 0
  end.

(** Lines 149-154: the placement transform. *)
Definition placement (cfg : configuration) (svg_config : svg_entry)
    (height : float) : res (list pynum) :=
  (let* f := getitem "font" (font cfg) in
   let* t := getitem "transform" (transform f) in
   let* tr := transform_list t in
   let* b := base_offset svg_config in
   let* t4 := list_getitem tr 4 in
   let* l := getitem "left" (left svg_config) in
   let* l := py_int l in
   let* x := py_add t4 (PyInt l) in
   let tr := <[4%nat := x]> tr in
   let* t5 := list_getitem tr 5 in
   let* hb := py_add (PyFloat height) (PyInt b) in
   let* y := py_add t5 hb in
   Ok (<[5%nat := y]> tr))%res.

(** Lines 156-162: the arguments of [svg2glif], in the order Python
    evaluates them, and the call. *)
Definition make_glif (cfg : configuration) (svg_config : svg_entry)
    (infoObject : InfoObject) (svg : string) (gw : pynum)
    (unicodes : option (list Z)) (tr : list pynum) : res string :=
  (let* n := getitem "glyph_name" (glyph_name svg_config) in
   let* h := getattr "unitsPerEm" (unitsPerEm infoObject) in
   let* f := getitem "font" (font cfg) in
   let* v := getitem "version" (version f) in
   svg2glif svg n gw h unicodes tr v)%res.

(** Lines 174-182: a new glyph enters the registry and the order. *)
Definition register (ufo_font_path contentsPlistPath familyName gname : string)
    (contentsPlist : gmap string string) : prog unit :=
  (let contentsPlist' := <[gname := gname +:+ ".glif"]> contentsPlist in
   do _ <- write_file contentsPlistPath (plist_dumps L contentsPlist') ;;
   do _ <- print (Add familyName gname (gname +:+ ".glif")) ;;
   do lib_obj <- lib_read (readLib L ufo_font_path) ;;
   do order <- lift (getitem "public.glyphOrder"
                    (lib_obj !! "public.glyphOrder")) ;;
   do order' <- lift (match order with
                   | PArray l => Ok (PArray (l ++ [PString gname]))
                   | _ => Raise (AttributeError "append")
                   end) ;;
   lib_write (writeLib L ufo_font_path
                (<["public.glyphOrder" := order']> lib_obj)))%prog.

(** Line 135: where the registry lives. *)
Definition contentsPlistPath (ufo_font_path : string) : string :=
  ufo_font_path +:+ "/glyphs/contents.plist".

(** Lines 164-167: where the glyph description goes. *)
Definition output_file (opts : options) (ufo_font_path gname : string) : string :=
  match outfile opts with
  | None => ufo_font_path +:+ "/glyphs/" +:+ gname +:+ ".glif"
  | Some o => o
  end.

(** Lines 129-182: the run once the entry of the outline is known. *)
Definition convert (opts : options) (cfg : configuration)
    (width height : float) (name ufo_font_path family svg : string)
    (infoObject : InfoObject) (svg_config : svg_entry) : prog unit :=
  (do unicodes <- lift (unicodeVal svg_config) ;;
   do gw <- lift (glyphWidth width svg_config) ;;
   do contentsPlist <-
     reraise (do s <- read_file (contentsPlistPath ufo_font_path) ;;
              lift (readPlist L s))
       (UFOLibError
          ("The file " +:+ contentsPlistPath ufo_font_path
           +:+ " could not be read.")) ;;
   do gname <- lift (getitem "glyph_name" (glyph_name svg_config)) ;;
   let existing_glyph := bool_decide (is_Some (contentsPlist !! gname)) in
   do tr <- lift (placement cfg svg_config height) ;;
   do glif <- lift (make_glif cfg svg_config infoObject svg gw unicodes tr) ;;
   do _ <- write_file (output_file opts ufo_font_path gname) glif ;;
   do _ <- print (Convert family name (output_file opts ufo_font_path gname)) ;;
   if existing_glyph then ret tt
   else register ufo_font_path (contentsPlistPath ufo_font_path) family gname
          contentsPlist)%prog.

(** Lines 123-128: the entry of the outline in the mapping. *)
Definition lookup_entry (cfg : configuration) (name : string) : res svg_entry :=
  (let* s := getitem "svgs" (svgs cfg) in getitem name (s !! name))%res.

(** Lines 102-122: what the script reads before it looks the entry up. *)
Record context : Type := {
  ctx_config : configuration;
  ctx_width : float;
  ctx_height : float;
  ctx_name : string;
  ctx_ufo : string;
  ctx_info : InfoObject;
  ctx_family : string;
  ctx_svg : string }.

Definition prelude (opts : options) : prog context :=
  (do cfg <- getConfig (config opts) ;;
   let svg_file := infile opts in
   do svgObj <- parseSvg svg_file ;;
   do width <- lift (svg_dimension svgObj "width") ;;
   do height <- lift (svg_dimension svgObj "height") ;;
   let name := splitext_root (basename svg_file) in
   do ufo_font_path <- lift (let* f := getitem "font" (font cfg) in
                          getitem "ufo" (ufo f))%res ;;
   do _ <- lib_read (UFOReader L ufo_font_path) ;;
   do _ <- lib_write (UFOWriter L ufo_font_path) ;;
   do infoObject <- lib_read (readInfo L ufo_font_path) ;;
   do family <- lift (getattr "familyName" (familyName infoObject)) ;;
   do svg <- read_file svg_file ;;
   ret {| ctx_config := cfg; ctx_width := width; ctx_height := height;
          ctx_name := name; ctx_ufo := ufo_font_path;
          ctx_info := infoObject; ctx_family := family;
          ctx_svg := svg |})%prog.

Definition main (opts : options) : prog unit :=
  (do c <- prelude opts ;;
   match lookup_entry (ctx_config c) (ctx_name c) with
   | Raise (KeyError _) => print (Skip (ctx_name c))
   | Raise e => raise e
   | Ok svg_config =>
       convert opts (ctx_config c) (ctx_width c) (ctx_height c) (ctx_name c)
         (ctx_ufo c) (ctx_family c) (ctx_svg c) (ctx_info c) svg_config
   end)%prog.

(** [sys.exit(main())]: the exit status and the world the run leaves. *)
Definition script (opts : options) (w : world) : Z * world :=
  match main opts w with
  | (Ok _, w') => (0, w')
  | (Raise _, w') => (1, w')
  end.

End Script.

(* ===================================================================== *)
(** ** A small library instance to run the script on *)
(* ===================================================================== *)

(** Toy file formats stand in for YAML, XML and property lists: enough
    to execute [main] on concrete worlds.  Numbers are read by a
    decimal-integer grammar with an optional sign. *)
Module Demo.

Definition digit (base : Z) (c : ascii) : option Z :=
  let n := Z.of_nat (nat_of_ascii c) in
  let d := if (48 <=? n) && (n <=? 57) then n - 48
           else if (97 <=? n) && (n <=? 102) then n - 87
           else if (65 <=? n) && (n <=? 70) then n - 55
           else 99 in
  if d <? base then Some d else None.

Fixpoint digits (base : Z) (acc : Z) (s : string) : option Z :=
  match s with
  | EmptyString => Some acc
  | String c s' =>
      match digit base c with
      | Some d => digits base (base * acc + d) s'
      | None => None
      end
  end.

Definition integer (base : Z) (s : string) : option Z :=
  match s with
  | EmptyString => None
  | String "-" (String c s') => Z.opp <$> digits base 0 (String c s')
  | String "+" (String c s') => digits base 0 (String c s')
  | _ => digits base 0 s
  end.

Definition join (l : list string) : string :=
  foldr (fun x acc => if is_empty acc then x else x +:+ " " +:+ acc)
    EmptyString l.

Fixpoint pairs (l : list string) : option (list (string * string)) :=
  match l with
  | [] => Some []
  | k :: v :: l' => cons (k, v) <$> pairs l'
  | _ => None
  end.

Definition entry (g : string) (l r : Z) (b : option Z) : svg_entry :=
  {| glyph_name := Some g; left := Some (PyInt l); right := Some (PyInt r);
     base := PyInt <$> b; unicode := None |}.

(** The one mapping document the toy YAML reader knows. *)
Definition mapping : configuration :=
  {| font := Some {| ufo := Some "Font.ufo";
                     transform := Some "1 0 0 1 0 0";
                     version := Some 2 |};
     svgs := Some (<["ka" := entry "uni0041" 10 10 (Some 0)]>
                   (<["kha" := entry "kha" 10 20 None]>
                    (<["ga" := entry "ga" 5 0 None]> ∅))) |}.

Definition names (l : list plist) : list string :=
  omap (fun p => match p with PString s => Some s | _ => None end) l.

Definition lib : library :=
  {| outline := string * list pynum;
     yaml_load s :=
       if String.eqb s "mapping" then Ok mapping else Raise YAMLError;
     etree_parse s :=
       match str_split s with
       | [t; w; h] =>
           Ok {| tag := t; attrib := <["width" := w]> (<["height" := h]> ∅) |}
       | _ => Raise ParseError
       end;
     float_literal s := Z2float <$> integer 10 s;
     int_literal b s := integer b s;
     readPlist s :=
       match pairs (str_split s) with
       | Some l => Ok (list_to_map l)
       | None => Raise (LibraryError "not a property list")
       end;
     plist_dumps m :=
       join ((fun kv => fst kv +:+ " " +:+ snd kv) <$> map_to_list m);
     UFOReader p fs :=
       match fs !! (p +:+ "/metainfo.plist") with
       | Some _ => Ok tt
       | None => Raise (UFOLibError "The specified UFO doesn't exist.")
       end;
     UFOWriter p fs := (Ok tt, fs);
     readInfo p fs :=
       match str_split <$> fs !! (p +:+ "/fontinfo.plist") with
       | Some [f; u] =>
           Ok {| familyName := Some f; unitsPerEm := PyInt <$> integer 10 u |}
       | _ => Ok {| familyName := None; unitsPerEm := None |}
       end;
     readLib p fs :=
       match fs !! (p +:+ "/lib.plist") with
       | Some s =>
           Ok (<["public.glyphOrder" := PArray (PString <$> str_split s)]> ∅)
       | None => Ok ∅
       end;
     writeLib p o fs :=
       match o !! "public.glyphOrder" with
       | Some (PArray l) => (Ok tt, <[p +:+ "/lib.plist" := join (names l)]> fs)
       | _ => (Ok tt, fs)
       end;
     SVGPath_fromstring svg tr := Ok (svg, tr);
     writeGlyphToString n g o v := Ok ("glif " +:+ n) |}.

(** A font holding the glyph [ga], a mapping and two outlines. *)
Definition disk : gmap string string :=
  <["svg-glif-mapping.yaml" := "mapping"]>
  (<["svgs/ka.svg" := "svg 100px 200px"]>
  (<["svgs/ga.svg" := "svg 60px 80px"]>
  (<["svgs/nya.svg" := "svg 100px 200px"]>
  (<["svgs/kha.svg" := "svg 100px 200px"]>
  (<["svgs/nga.svg" := "svg wide 200px"]>
  (<["svgs/gha.svg" := "svg 100px tall"]>
  (<["svgs/broken.svg" := "svg"]>
  (<["Font.ufo/metainfo.plist" := "3"]>
  (<["Font.ufo/fontinfo.plist" := "Gayathri 1000"]>
  (<["Font.ufo/lib.plist" := "ga"]>
  (<["Font.ufo/glyphs/contents.plist" := "ga ga.glif"]> ∅))))))))))).

Definition start : world :=
  {| files := disk; readonly := ∅; stdout := [] |}.

Definition run (svg : string) : options :=
  {| infile := svg; outfile := None; config := "svg-glif-mapping.yaml" |}.

End Demo.

(** Variations of the sample: a mapping whose entries lack a bearing, and
    disks without the registry, without the lib, with a locked path. *)
Module Demo2.

Definition mapping : configuration :=
  {| font := font Demo.mapping;
     svgs := Some (<["ka" := {| glyph_name := Some "uni0041"; left := None;
                               right := Some (PyInt 10); base := None;
                               unicode := None |}]>
                   (<["kha" := {| glyph_name := Some "kha";
                                   left := Some (PyInt 10); right := None;
                                   base := None; unicode := None |}]> ∅)) |}.

Definition lib : library :=
  {| outline := outline Demo.lib;
     yaml_load s :=
       if String.eqb s "mapping2" then Ok mapping else yaml_load Demo.lib s;
     etree_parse := etree_parse Demo.lib;
     float_literal := float_literal Demo.lib;
     int_literal := int_literal Demo.lib;
     readPlist := readPlist Demo.lib;
     plist_dumps := plist_dumps Demo.lib;
     UFOReader := UFOReader Demo.lib;
     UFOWriter := UFOWriter Demo.lib;
     readInfo := readInfo Demo.lib;
     readLib := readLib Demo.lib;
     writeLib := writeLib Demo.lib;
     SVGPath_fromstring := SVGPath_fromstring Demo.lib;
     writeGlyphToString := writeGlyphToString Demo.lib |}.

Definition disk : gmap string string :=
  <["svg-glif-mapping.yaml" := "mapping2"]> Demo.disk.

Definition start : world :=
  {| files := disk; readonly := ∅; stdout := [] |}.

Definition no_registry : world :=
  {| files := delete "Font.ufo/glyphs/contents.plist" Demo.disk;
     readonly := ∅; stdout := [] |}.

Definition no_lib : world :=
  {| files := delete "Font.ufo/lib.plist" Demo.disk;
     readonly := ∅; stdout := [] |}.

Definition no_upm : world :=
  {| files := <["Font.ufo/fontinfo.plist" := "Gayathri unknown"]> Demo.disk;
     readonly := ∅; stdout := [] |}.

Definition no_family : world :=
  {| files := <["Font.ufo/fontinfo.plist" := "Gayathri"]> Demo.disk;
     readonly := ∅; stdout := [] |}.

Definition locked (path : string) : world :=
  {| files := Demo.disk; readonly := {[ path ]}; stdout := [] |}.

End Demo2.

(** A library closer to ufoLib in two respects: constructing the writer
    rewrites [metainfo.plist] with the creator and the format version,
    and the text of a glyph shows the advance it was given. *)
Module Demo3.

Fixpoint decimal (fuel : nat) (n : Z) (acc : string) : string :=
  match fuel with
  | O => acc
  | S k =>
      let acc' := String (ascii_of_nat (48 + Z.to_nat (n mod 10))) acc in
      if n <? 10 then acc' else decimal k (n / 10) acc'
  end.

Definition show_int (z : Z) : string :=
  if z <? 0 then "-" +:+ decimal 40 (- z) EmptyString
  else decimal 40 z EmptyString.

Definition show (x : pynum) : string :=
  match x with
  | PyInt z => show_int z
  | PyFloat f =>
      match float_trunc f with
      | Ok z => show_int z +:+ ".0"
      | Raise _ => "nan"
      end
  end.

Definition lib : library :=
  {| outline := outline Demo.lib;
     yaml_load := yaml_load Demo.lib;
     etree_parse := etree_parse Demo.lib;
     float_literal := float_literal Demo.lib;
     int_literal := int_literal Demo.lib;
     readPlist := readPlist Demo.lib;
     plist_dumps := plist_dumps Demo.lib;
     UFOReader := UFOReader Demo.lib;
     UFOWriter p fs :=
       (Ok tt, <[p +:+ "/metainfo.plist" := "org.robofab.ufoLib 3"]> fs);
     readInfo := readInfo Demo.lib;
     readLib := readLib Demo.lib;
     writeLib := writeLib Demo.lib;
     SVGPath_fromstring := SVGPath_fromstring Demo.lib;
     writeGlyphToString n g o v :=
       Ok ("glif " +:+ n +:+ " width=" +:+ show (glyph_width g)
           +:+ " height=" +:+ show (glyph_height g)) |}.

(** The command line with an explicit output path. *)
Definition run_to (svg out : string) : options :=
  {| infile := svg; outfile := Some out; config := "svg-glif-mapping.yaml" |}.

End Demo3.

(* ===================================================================== *)
(** ** Results, programs: inversion and computation rules *)
(* ===================================================================== *)

Lemma res_bind_ok {A B} (c : res A) (k : A -> res B) (b : B) :
  res_bind c k = Ok b -> exists a, c = Ok a /\ k a = Ok b.
Proof. destruct c as [a|e]; simpl; [eauto | discriminate]. Qed.

Lemma bind_ok {A B} (c : prog A) (k : A -> prog B) w (b : B) w' :
  bind c k w = (Ok b, w') ->
  exists a w1, c w = (Ok a, w1) /\ k a w1 = (Ok b, w').
Proof.
  unfold bind. destruct (c w) as [[a|e] w1]; [eauto | discriminate].
Qed.

Lemma bind_eq {A B} (c : prog A) (k : A -> prog B) w a w1 :
  c w = (Ok a, w1) -> bind c k w = k a w1.
Proof. unfold bind. intros ->. reflexivity. Qed.

Lemma bind_raise {A B} (c : prog A) (k : A -> prog B) w e w1 :
  c w = (Raise e, w1) -> bind c k w = (Raise e, w1).
Proof. unfold bind. intros ->. reflexivity. Qed.

Lemma lift_ok {A} (r : res A) w (a : A) w' :
  lift r w = (Ok a, w') -> r = Ok a /\ w' = w.
Proof. unfold lift. intros [= -> ->]. auto. Qed.

Lemma lib_read_ok {A} (f : gmap string string -> res A) w (a : A) w' :
  lib_read f w = (Ok a, w') -> f (files w) = Ok a /\ w' = w.
Proof. unfold lib_read. intros [= -> ->]. auto. Qed.

Lemma lib_write_ok {A} (f : gmap string string -> res A * gmap string string)
    w (a : A) w' :
  lib_write f w = (Ok a, w') ->
  exists fs, f (files w) = (Ok a, fs) /\ w' = with_files w fs.
Proof.
  unfold lib_write. destruct (f (files w)) as [r fs]. intros [= -> <-].
  eauto.
Qed.

Lemma read_file_ok path w s w' :
  read_file path w = (Ok s, w') -> files w !! path = Some s /\ w' = w.
Proof.
  unfold read_file. destruct (files w !! path); intros [= <- <-]; auto.
Qed.

Lemma write_file_ok path s w w' :
  write_file path s w = (Ok tt, w') ->
  (path ∉ readonly w) /\ w' = with_files w (<[path := s]> (files w)).
Proof.
  unfold write_file. case_decide; intros [= <-]; auto.
Qed.

Lemma print_ok m w w' :
  print m w = (Ok tt, w') ->
  w' = {| files := files w; readonly := readonly w;
          stdout := stdout w ++ [m] |}.
Proof. unfold print. intros [= <-]. reflexivity. Qed.

Lemma reraise_ok {A} (c : prog A) e w (a : A) w' :
  reraise c e w = (Ok a, w') -> c w = (Ok a, w').
Proof.
  unfold reraise. destruct (c w) as [[x|x] w1]; intros [= <- <-]; auto.
Qed.

Lemma getitem_ok {A} key (o : option A) a :
  getitem key o = Ok a -> o = Some a.
Proof. destruct o; simpl; congruence. Qed.

Lemma getattr_ok {A} attr (o : option A) a :
  getattr attr o = Ok a -> o = Some a.
Proof. destruct o; simpl; congruence. Qed.

(** Peel the first step off a successful computation. *)
Ltac step H :=
  lazymatch type of H with
  | bind _ _ _ = (Ok _, _) =>
      let a := fresh "a" in let w := fresh "w" in let E := fresh "E" in
      apply bind_ok in H; destruct H as (a & w & E & H)
  | res_bind _ _ = Ok _ =>
      let a := fresh "a" in let E := fresh "E" in
      apply res_bind_ok in H; destruct H as (a & E & H)
  end.

(* ===================================================================== *)
(** ** Numbers and strings: facts *)
(* ===================================================================== *)

Example split_ex : split "1,0 0,  1 5,50" = ["1"; "0"; "0"; "1"; "5"; "50"]%string.
Proof. reflexivity. Qed.

Example replace_ex : str_replace "px" " " "100px" = "100 "%string.
Proof. reflexivity. Qed.

Example name_ex : splitext_root (basename "sources/svgs/ka.svg") = "ka"%string.
Proof. reflexivity. Qed.

Example name_dots_ex : splitext_root (basename "a/..b.c.svg") = "..b.c"%string
                       /\ splitext_root (basename "a/.svg") = ".svg"%string.
Proof. split; reflexivity. Qed.

(** Adding an int to a float gives a float. *)
Lemma py_add_float_int (a : float) (b : Z) (x : pynum) :
  py_add (PyFloat a) (PyInt b) = Ok x ->
  exists b', int_to_float b = Ok b' /\ x = PyFloat (a + b')%float.
Proof.
  simpl. destruct (int_to_float b) as [b'|]; simpl; [|discriminate].
  intros [= <-]. eauto.
Qed.

Lemma res_map_floats L (l : list string) (tr : list pynum) :
  res_map (fun n => let* f := py_float L n in Ok (PyFloat f))%res l = Ok tr ->
  Forall (fun x => exists f, x = PyFloat f) tr.
Proof.
  revert tr. induction l as [|n l IH]; cbn [res_map]; intros tr H.
  - injection H as <-. constructor.
  - step H. step H. step E. injection H as <-. injection E as <-.
    constructor; eauto.
Qed.

(** The coefficients [transform_list] returns are floats. *)
Lemma transform_list_floats L (arg : string) (tr : list pynum) :
  transform_list L arg = Ok tr ->
  Forall (fun x => exists f, x = PyFloat f) tr.
Proof.
  unfold transform_list, except_ValueError. intros H.
  apply (res_map_floats L (split arg)).
  destruct (res_map _ _) as [l|[]]; congruence.
Qed.

(* ===================================================================== *)
(** ** The script, step by step *)
(* ===================================================================== *)

Section Steps.

Context (L : library).

(** What a computed advance width is made of. *)
Lemma glyphWidth_ok (width : float) (svg_config : svg_entry) (gw : pynum) :
  glyphWidth width svg_config = Ok gw ->
  exists lv l lf rv r rf,
    left svg_config = Some lv /\ py_int lv = Ok l /\ int_to_float l = Ok lf /\
    right svg_config = Some rv /\ py_int rv = Ok r /\ int_to_float r = Ok rf /\
    gw = PyFloat (width + lf + rf)%float.
Proof.
  unfold glyphWidth. intros H.
  apply res_bind_ok in H as (lv & Hlv & H). apply getitem_ok in Hlv.
  apply res_bind_ok in H as (l & Hl & H).
  apply res_bind_ok in H as (a & Ha & H).
  apply py_add_float_int in Ha as (lf & Hlf & ->).
  apply res_bind_ok in H as (rv & Hrv & H). apply getitem_ok in Hrv.
  apply res_bind_ok in H as (r & Hr & H).
  apply py_add_float_int in H as (rf & Hrf & ->).
  exists lv, l, lf, rv, r, rf. auto 10.
Qed.

(** What a generated glyph description is made of. *)
Lemma make_glif_ok cfg svg_config infoObject svg gw unicodes tr glif :
  make_glif L cfg svg_config infoObject svg gw unicodes tr = Ok glif ->
  exists n h f v o,
    glyph_name svg_config = Some n /\ unitsPerEm infoObject = Some h /\
    font cfg = Some f /\ version f = Some v /\
    SVGPath_fromstring L svg tr = Ok o /\
    writeGlyphToString L n
      {| glyph_width := gw; glyph_height := h; glyph_unicodes := unicodes |}
      o v = Ok glif.
Proof.
  unfold make_glif, svg2glif. intros H.
  apply res_bind_ok in H as (n & Hn & H). apply getitem_ok in Hn.
  apply res_bind_ok in H as (h & Hh & H). apply getattr_ok in Hh.
  apply res_bind_ok in H as (f & Hf & H). apply getitem_ok in Hf.
  apply res_bind_ok in H as (v & Hv & H). apply getitem_ok in Hv.
  apply res_bind_ok in H as (o & Ho & H).
  exists n, h, f, v, o. auto 10.
Qed.

(** The entry lookup fails with a [KeyError] only. *)
Lemma lookup_entry_raise cfg name e :
  lookup_entry cfg name = Raise e -> exists k, e = KeyError k.
Proof.
  unfold lookup_entry. destruct (svgs cfg) as [s|]; simpl.
  - destruct (s !! name); simpl; [discriminate|]. intros [= <-]. eauto.
  - intros [= <-]. eauto.
Qed.

Lemma lookup_entry_ok cfg name svg_config :
  lookup_entry cfg name = Ok svg_config <->
  exists s, svgs cfg = Some s /\ s !! name = Some svg_config.
Proof.
  unfold lookup_entry. destruct (svgs cfg) as [s|]; simpl.
  - destruct (s !! name) eqn:E; simpl; split.
    + intros [= <-]. eauto.
    + intros (s' & [= <-] & H). congruence.
    + discriminate.
    + intros (s' & [= <-] & H). congruence.
  - split; [discriminate|]. intros (s & [=] & _).
Qed.

(** The run before the lookup: what it read, and that the only change
    to the world is the one the writer's constructor made. *)
Lemma prelude_ok opts w c w1 :
  prelude L opts w = (Ok c, w1) ->
  exists ytext root fs1 f,
    files w !! config opts = Some ytext /\
    yaml_load L ytext = Ok (ctx_config c) /\
    (exists text, files w !! infile opts = Some text /\
                  etree_parse L text = Ok root) /\
    svg_dimension L root "width" = Ok (ctx_width c) /\
    svg_dimension L root "height" = Ok (ctx_height c) /\
    ctx_name c = splitext_root (basename (infile opts)) /\
    font (ctx_config c) = Some f /\ ufo f = Some (ctx_ufo c) /\
    UFOReader L (ctx_ufo c) (files w) = Ok tt /\
    UFOWriter L (ctx_ufo c) (files w) = (Ok tt, fs1) /\
    readInfo L (ctx_ufo c) fs1 = Ok (ctx_info c) /\
    familyName (ctx_info c) = Some (ctx_family c) /\
    fs1 !! infile opts = Some (ctx_svg c) /\
    w1 = with_files w fs1.
Proof.
  unfold prelude, getConfig, parseSvg. intros H.
  apply bind_ok in H as (cfg & w0 & Hc & H).
  apply bind_ok in Hc as (ytext & w0' & Hy & Hc).
  apply read_file_ok in Hy as [Hy ->]. apply lift_ok in Hc as [Hc ->].
  apply bind_ok in H as (root & w0 & Hr & H).
  apply bind_ok in Hr as (text & w0' & Ht & Hr).
  apply read_file_ok in Ht as [Ht ->]. apply lift_ok in Hr as [Hr ->].
  apply bind_ok in H as (width & w0 & Hw & H). apply lift_ok in Hw as [Hw ->].
  apply bind_ok in H as (height & w0 & Hh & H). apply lift_ok in Hh as [Hh ->].
  apply bind_ok in H as (p & w0 & Hp & H). apply lift_ok in Hp as [Hp ->].
  apply res_bind_ok in Hp as (f & Hf & Hp).
  apply getitem_ok in Hf. apply getitem_ok in Hp.
  apply bind_ok in H as ([] & w0 & Hrd & H).
  apply lib_read_ok in Hrd as [Hrd ->].
  apply bind_ok in H as ([] & w0 & Hwr & H).
  apply lib_write_ok in Hwr as (fs1 & Hwr & ->).
  apply bind_ok in H as (info & w0 & Hi & H).
  apply lib_read_ok in Hi as [Hi ->].
  apply bind_ok in H as (fam & w0 & Hfam & H).
  apply lift_ok in Hfam as [Hfam ->]. apply getattr_ok in Hfam.
  apply bind_ok in H as (svg & w0 & Hs & H).
  apply read_file_ok in Hs as [Hs ->].
  injection H as <- <-. simpl in *.
  exists ytext, root, fs1, f. repeat split; eauto.
Qed.

(** A run whose outline has an entry continues with the conversion. *)
Lemma main_entry opts w c w1 svg_config :
  prelude L opts w = (Ok c, w1) ->
  lookup_entry (ctx_config c) (ctx_name c) = Ok svg_config ->
  main L opts w =
  convert L opts (ctx_config c) (ctx_width c) (ctx_height c) (ctx_name c)
    (ctx_ufo c) (ctx_family c) (ctx_svg c) (ctx_info c) svg_config w1.
Proof.
  intros Hp Hl. unfold main. rewrite (bind_eq _ _ _ _ _ Hp), Hl. reflexivity.
Qed.

(** A run whose outline has no entry prints the warning and returns. *)
Lemma main_skip opts w c w1 :
  prelude L opts w = (Ok c, w1) ->
  (forall svg_config,
     lookup_entry (ctx_config c) (ctx_name c) <> Ok svg_config) ->
  main L opts w =
  (Ok tt, {| files := files w1; readonly := readonly w1;
             stdout := stdout w1 ++ [Skip (ctx_name c)] |}).
Proof.
  intros Hp Hl. unfold main. rewrite (bind_eq _ _ _ _ _ Hp).
  destruct (lookup_entry _ _) as [x|e] eqn:E.
  - destruct (Hl x). reflexivity.
  - apply lookup_entry_raise in E as [k ->]. reflexivity.
Qed.

(** What a successful registration did. *)
Lemma register_ok ufo_font_path cpath family gname contents w w' :
  register L ufo_font_path cpath family gname contents w = (Ok tt, w') ->
  exists lib_obj order,
    (cpath ∉ readonly w) /\
    let fs2 := <[cpath := plist_dumps L (<[gname := gname +:+ ".glif"]> contents)]>
                 (files w) in
    readLib L ufo_font_path fs2 = Ok lib_obj /\
    lib_obj !! "public.glyphOrder" = Some (PArray order) /\
    writeLib L ufo_font_path
      (<["public.glyphOrder" := PArray (order ++ [PString gname])]> lib_obj)
      fs2 = (Ok tt, files w') /\
    readonly w' = readonly w /\
    stdout w' = stdout w ++ [Add family gname (gname +:+ ".glif")].
Proof.
  unfold register. intros H.
  apply bind_ok in H as ([] & w0 & Hw & H).
  apply write_file_ok in Hw as [Hro ->].
  apply bind_ok in H as ([] & w0 & Hp & H). apply print_ok in Hp as ->.
  apply bind_ok in H as (lib_obj & w0 & Hl & H).
  apply lib_read_ok in Hl as [Hl ->].
  apply bind_ok in H as (order & w0 & Ho & H).
  apply lift_ok in Ho as [Ho ->]. apply getitem_ok in Ho.
  apply bind_ok in H as (order' & w0 & Ha & H). apply lift_ok in Ha as [Ha ->].
  apply lib_write_ok in H as (fs & H & ->).
  destruct order as [| |l|]; try discriminate. injection Ha as <-.
  simpl in *. exists lib_obj, l. auto 10.
Qed.

(** What a successful conversion did. *)
Lemma convert_ok opts cfg width height name ufo_font_path family svg
    infoObject svg_config w w' :
  convert L opts cfg width height name ufo_font_path family svg infoObject
    svg_config w = (Ok tt, w') ->
  exists unicodes gw text contents gname tr glif,
    glyphWidth width svg_config = Ok gw /\
    files w !! contentsPlistPath ufo_font_path = Some text /\
    readPlist L text = Ok contents /\
    glyph_name svg_config = Some gname /\
    placement L cfg svg_config height = Ok tr /\
    make_glif L cfg svg_config infoObject svg gw unicodes tr = Ok glif /\
    (output_file opts ufo_font_path gname ∉ readonly w) /\
    let w2 := {| files := <[output_file opts ufo_font_path gname := glif]>
                            (files w);
                 readonly := readonly w;
                 stdout := stdout w ++
                   [Convert family name
                      (output_file opts ufo_font_path gname)] |} in
    if bool_decide (is_Some (contents !! gname)) then w' = w2
    else register L ufo_font_path (contentsPlistPath ufo_font_path) family
           gname contents w2 = (Ok tt, w').
Proof.
  unfold convert. intros H.
  apply bind_ok in H as (unicodes & w0 & Hu & H).
  apply lift_ok in Hu as [Hu ->].
  apply bind_ok in H as (gw & w0 & Hg & H). apply lift_ok in Hg as [Hg ->].
  apply bind_ok in H as (contents & w0 & Hc & H).
  apply reraise_ok in Hc. apply bind_ok in Hc as (text & w0' & Ht & Hc).
  apply read_file_ok in Ht as [Ht ->]. apply lift_ok in Hc as [Hc ->].
  apply bind_ok in H as (gname & w0 & Hn & H). apply lift_ok in Hn as [Hn ->].
  apply getitem_ok in Hn.
  apply bind_ok in H as (tr & w0 & Htr & H). apply lift_ok in Htr as [Htr ->].
  apply bind_ok in H as (glif & w0 & Hgl & H). apply lift_ok in Hgl as [Hgl ->].
  apply bind_ok in H as ([] & w0 & Hw & H).
  apply write_file_ok in Hw as [Hro ->].
  apply bind_ok in H as ([] & w0 & Hp & H). apply print_ok in Hp as ->.
  exists unicodes, gw, text, contents, gname, tr, glif.
  repeat (split; [assumption|]). simpl.
  destruct (bool_decide (is_Some (contents !! gname))); [|exact H].
  injection H as <-. reflexivity.
Qed.

(** A run that fails before the lookup fails the same way as a whole. *)
Lemma main_prelude_raise opts w e w1 :
  prelude L opts w = (Raise e, w1) -> main L opts w = (Raise e, w1).
Proof. intros H. unfold main. apply bind_raise. exact H. Qed.

End Steps.

(* ===================================================================== *)
(** ** Placement: the transform and the advance width *)
(* ===================================================================== *)

(** Tokens that are float literals are read as those floats. *)
Lemma transform_list_of_literals (L : library) (arg : string)
    (fl : list float) :
  Forall2 (fun n x => float_literal L (str_strip n) = Some x) (split arg) fl ->
  transform_list L arg = Ok (PyFloat <$> fl).
Proof.
  intros H. unfold transform_list.
  assert (E : res_map (fun n => (let* f := py_float L n in Ok (PyFloat f))%res)
                (split arg) = Ok (PyFloat <$> fl)).
  { induction H as [|n x l fl' Hn _ IH]; [reflexivity|].
    cbn [res_map]. unfold py_float at 1. rewrite Hn. cbn [res_bind].
    rewrite IH. reflexivity. }
  rewrite E. reflexivity.
Qed.

(** C1: when the [transform] text of the font section consists of six
    float literals a b c d e f, separated by blanks or commas, the
    placement transform is (a, b, c, d, e + left, f + (height + base)):
    [left] is the entry's left bearing as an integer, [base] the entry's
    [base] key as an integer, 0 when the entry has no such key, and
    [height] the outline's declared height. *)
Theorem placement_adjusts_translation (L : library) (cfg : configuration)
    (svg_config : svg_entry) (height : float) (fs : font_section) (t : string)
    (a b c d e f : float) (lv : pynum) (l bz : Z) (lf bf : float) :
  font cfg = Some fs ->
  transform fs = Some t ->
  Forall2 (fun n x => float_literal L (str_strip n) = Some x)
    (split t) [a; b; c; d; e; f] ->
  left svg_config = Some lv ->
  py_int lv = Ok l ->
  int_to_float l = Ok lf ->
  match base svg_config with
  | Some bv => py_int bv = Ok bz
  | None => bz = 0
  end ->
  int_to_float bz = Ok bf ->
  placement L cfg svg_config height =
    Ok [PyFloat a; PyFloat b; PyFloat c; PyFloat d;
        PyFloat (e + lf)%float; PyFloat (f + (height + bf))%float].
Proof.
  intros Hfont Ht Htl Hl Hli Hlf Hb Hbf. unfold placement.
  rewrite Hfont; cbn [getitem res_bind]. rewrite Ht; cbn [getitem res_bind].
  rewrite (transform_list_of_literals L t _ Htl); cbn [res_bind fmap list_fmap].
  assert (Hbase : base_offset svg_config = Ok bz).
  { unfold base_offset. destruct (base svg_config); [exact Hb|].
    rewrite Hb. reflexivity. }
  rewrite Hbase; cbn [res_bind].
  cbn [list_getitem lookup list_lookup res_bind].
  rewrite Hl; cbn [getitem res_bind]. rewrite Hli; cbn [res_bind].
  cbn [py_add]. rewrite Hlf; cbn [res_bind].
  cbn [insert list_insert list_getitem lookup list_lookup res_bind].
  rewrite Hbf; cbn [res_bind]. reflexivity.
Qed.

(** The example of the specification: base (1,0,0,1,0,0), left 5,
    outline height 50, no baseline offset; and an entry with the offset
    7 on the base (1,0,0,1,2,3) written with commas. *)
Lemma placement_adjusts_translation_witness :
  placement Demo.lib Demo.mapping (Demo.entry "x" 5 0 None) 50 =
    Ok [PyFloat 1; PyFloat 0; PyFloat 0; PyFloat 1; PyFloat 5; PyFloat 50] /\
  placement Demo.lib
    {| font := Some {| ufo := Some "Font.ufo";
                       transform := Some "1,0,0,1, 2,3";
                       version := Some 2 |};
       svgs := None |}
    (Demo.entry "x" 5 0 (Some 7)) 50 =
    Ok [PyFloat 1; PyFloat 0; PyFloat 0; PyFloat 1; PyFloat 7; PyFloat 60].
Proof.
  split.
  - apply (placement_adjusts_translation Demo.lib Demo.mapping
             (Demo.entry "x" 5 0 None) 50
             {| ufo := Some "Font.ufo"; transform := Some "1 0 0 1 0 0";
                version := Some 2 |}
             "1 0 0 1 0 0" 1 0 0 1 0 0 (PyInt 5) 5 0 5 0);
      try reflexivity.
    replace (split "1 0 0 1 0 0")
      with ["1"; "0"; "0"; "1"; "0"; "0"]%string by (vm_compute; reflexivity).
    repeat (constructor; [vm_compute; reflexivity|]). constructor.
  - apply (placement_adjusts_translation Demo.lib _
             (Demo.entry "x" 5 0 (Some 7)) 50
             {| ufo := Some "Font.ufo"; transform := Some "1,0,0,1, 2,3";
                version := Some 2 |}
             "1,0,0,1, 2,3" 1 0 0 1 2 3 (PyInt 5) 5 7 5 7);
      try reflexivity.
    replace (split "1,0,0,1, 2,3")
      with ["1"; "0"; "0"; "1"; "2"; "3"]%string by (vm_compute; reflexivity).
    repeat (constructor; [vm_compute; reflexivity|]). constructor.
Defined.

(** C2: the advance width is the outline's width plus the left bearing
    plus the right bearing, added in that order. *)
Theorem advance_width_is_sum (width : float) (svg_config : svg_entry)
    (lv rv : pynum) (l r : Z) (lf rf : float) :
  left svg_config = Some lv ->
  py_int lv = Ok l ->
  int_to_float l = Ok lf ->
  right svg_config = Some rv ->
  py_int rv = Ok r ->
  int_to_float r = Ok rf ->
  glyphWidth width svg_config = Ok (PyFloat (width + lf + rf)%float).
Proof.
  intros Hl Hli Hlf Hr Hri Hrf. unfold glyphWidth.
  rewrite Hl; cbn [getitem res_bind]. rewrite Hli; cbn [res_bind py_add].
  rewrite Hlf; cbn [res_bind]. rewrite Hr; cbn [getitem res_bind].
  rewrite Hri; cbn [res_bind py_add]. rewrite Hrf. reflexivity.
Qed.

(** The example of the specification: left 10, right 20, width 100 give
    130, a value equal to the integer 130. *)
Lemma advance_width_is_sum_witness :
  glyphWidth 100 (Demo.entry "x" 10 20 None) = Ok (PyFloat 130) /\
  py_eqb (PyFloat 130) (PyInt 130) = true.
Proof.
  split.
  - apply (advance_width_is_sum 100 (Demo.entry "x" 10 20 None)
             (PyInt 10) (PyInt 20) 10 20 10 20); vm_compute; reflexivity.
  - vm_compute; reflexivity.
Defined.

(* ===================================================================== *)
(** ** Outlines without an entry *)
(* ===================================================================== *)

(** C5, as the code has it: when the base name of the outline has no
    entry in the [svgs] section, the script itself writes no file and
    prints the skip notice; the files the run leaves are exactly those
    the construction of the UFO writer left, which runs before the
    lookup, so every path that construction does not touch has the
    content it had before the run. *)
Theorem skip_writes_nothing (L : library) (opts : options) (w w1 : world)
    (c : context) :
  prelude L opts w = (Ok c, w1) ->
  (forall s, svgs (ctx_config c) = Some s ->
             s !! splitext_root (basename (infile opts)) = None) ->
  let constructed := snd (UFOWriter L (ctx_ufo c) (files w)) in
  main L opts w =
    (Ok tt, {| files := constructed; readonly := readonly w;
               stdout := stdout w ++
                 [Skip (splitext_root (basename (infile opts)))] |}) /\
  (forall p, constructed !! p = files w !! p ->
             files (snd (main L opts w)) !! p = files w !! p).
Proof.
  intros Hp Hmiss constructed.
  destruct (prelude_ok L opts w c w1 Hp)
    as (yt & root & fs1 & f & _ & _ & _ & _ & _ & Hn & _ & _ & _ & Hw & _ & _ & _ & ->).
  assert (Hc : constructed = fs1) by (unfold constructed; rewrite Hw; reflexivity).
  assert (Hm : main L opts w =
               (Ok tt, {| files := constructed; readonly := readonly w;
                          stdout := stdout w ++
                            [Skip (splitext_root (basename (infile opts)))] |})).
  { rewrite (main_skip L opts w c _ Hp).
    - rewrite Hn, Hc. reflexivity.
    - intros e He. apply lookup_entry_ok in He as (s & Hs & He).
      rewrite Hn, (Hmiss s Hs) in He. discriminate. }
  split; [exact Hm|]. intros p Hpth. rewrite Hm. exact Hpth.
Qed.

(** The outline [nya.svg] has no entry.  With a writer whose
    construction rewrites [metainfo.plist] that file is all that
    changes. *)
Lemma skip_writes_nothing_witness :
  main Demo3.lib (Demo.run "svgs/nya.svg") Demo.start =
    (Ok tt,
     {| files := <["Font.ufo/metainfo.plist" := "org.robofab.ufoLib 3"]>
                   Demo.disk;
        readonly := ∅; stdout := [Skip "nya"] |}) /\
  files (snd (main Demo3.lib (Demo.run "svgs/nya.svg") Demo.start))
    !! "Font.ufo/glyphs/contents.plist" = Some "ga ga.glif"%string.
Proof.
  destruct (skip_writes_nothing Demo3.lib (Demo.run "svgs/nya.svg") Demo.start
              {| files := <["Font.ufo/metainfo.plist" :=
                              "org.robofab.ufoLib 3"]> Demo.disk;
                 readonly := ∅; stdout := [] |}
              {| ctx_config := Demo.mapping; ctx_width := 100;
                 ctx_height := 200; ctx_name := "nya"; ctx_ufo := "Font.ufo";
                 ctx_info := {| familyName := Some "Gayathri";
                                unitsPerEm := Some (PyInt 1000) |};
                 ctx_family := "Gayathri"; ctx_svg := "svg 100px 200px" |})
    as (Hm & Hframe).
  - vm_compute; reflexivity.
  - intros s [= <-]. vm_compute; reflexivity.
  - split; [exact Hm|].
    rewrite (Hframe "Font.ufo/glyphs/contents.plist");
      vm_compute; reflexivity.
Defined.

(** The claim as the specification words it, no file write at all on a
    skip, fails for such a writer: the mapping has no entry for [nya],
    the run reports the skip and succeeds, and [metainfo.plist] no
    longer has the content it had. *)
Lemma skip_writes_nothing_counterexample :
  let r := main Demo3.lib (Demo.run "svgs/nya.svg") Demo.start in
  lookup_entry Demo.mapping (splitext_root (basename "svgs/nya.svg"))
    = Raise (KeyError "nya") /\
  fst r = Ok tt /\
  stdout (snd r) = [Skip "nya"] /\
  files Demo.start !! "Font.ufo/metainfo.plist" = Some "3"%string /\
  files (snd r) !! "Font.ufo/metainfo.plist"
    = Some "org.robofab.ufoLib 3"%string /\
  files (snd r) <> files Demo.start.
Proof.
  cbv zeta.
  assert (H : files (snd (main Demo3.lib (Demo.run "svgs/nya.svg") Demo.start))
              !! "Font.ufo/metainfo.plist" = Some "org.robofab.ufoLib 3"%string)
    by (vm_compute; reflexivity).
  repeat (split; [vm_compute; reflexivity|]).
  intros E. rewrite E in H. vm_compute in H. discriminate H.
Qed.

(** C6: a lookup miss prints the warning and the script then ends with
    exit status 0. *)
Theorem skip_exits_zero (L : library) (opts : options) (w w1 : world)
    (c : context) :
  prelude L opts w = (Ok c, w1) ->
  (forall s, svgs (ctx_config c) = Some s -> s !! ctx_name c = None) ->
  main L opts w = print (Skip (ctx_name c)) w1 /\
  fst (main L opts w) = Ok tt /\
  fst (script L opts w) = 0 /\
  stdout (snd (script L opts w)) = stdout w ++ [Skip (ctx_name c)].
Proof.
  intros Hp Hmiss.
  assert (Hm : main L opts w = print (Skip (ctx_name c)) w1).
  { rewrite (main_skip L opts w c w1 Hp); [reflexivity|].
    intros e He. apply lookup_entry_ok in He as (s & Hs & He).
    rewrite (Hmiss s Hs) in He. discriminate. }
  destruct (prelude_ok L opts w c w1 Hp)
    as (yt & root & fs1 & f & _ & _ & _ & _ & _ & _ & _ & _ & _ & _ & _ & _ & _ & ->).
  unfold script. rewrite Hm. unfold print. simpl. auto.
Qed.

Lemma skip_exits_zero_witness :
  fst (script Demo.lib (Demo.run "svgs/nya.svg") Demo.start) = 0 /\
  stdout (snd (script Demo.lib (Demo.run "svgs/nya.svg") Demo.start)) =
    [Skip "nya"].
Proof.
  destruct (skip_exits_zero Demo.lib (Demo.run "svgs/nya.svg") Demo.start
              Demo.start
              {| ctx_config := Demo.mapping; ctx_width := 100;
                 ctx_height := 200; ctx_name := "nya"; ctx_ufo := "Font.ufo";
                 ctx_info := {| familyName := Some "Gayathri";
                                unitsPerEm := Some (PyInt 1000) |};
                 ctx_family := "Gayathri"; ctx_svg := "svg 100px 200px" |})
    as (_ & _ & H0 & Hout).
  - vm_compute; reflexivity.
  - intros s [= <-]. vm_compute; reflexivity.
  - split; [exact H0 | exact Hout].
Defined.

(* ===================================================================== *)
(** ** The outline reader *)
(* ===================================================================== *)

Lemma append_cons (c : ascii) (s t : string) :
  String c s +:+ t = String c (s +:+ t).
Proof. reflexivity. Qed.









(* ===================================================================== *)
(** ** The glyph handed to the serializer *)
(* ===================================================================== *)

(** What a successful run on an outline with an entry computed, and the
    glyph description it produced. *)
Lemma run_emits (L : library) (opts : options) (w w1 w' : world)
    (c : context) (svg_config : svg_entry) :
  prelude L opts w = (Ok c, w1) ->
  lookup_entry (ctx_config c) (ctx_name c) = Ok svg_config ->
  main L opts w = (Ok tt, w') ->
  exists gw h unicodes tr gname f v o glif,
    glyphWidth (ctx_width c) svg_config = Ok gw /\
    unitsPerEm (ctx_info c) = Some h /\
    placement L (ctx_config c) svg_config (ctx_height c) = Ok tr /\
    glyph_name svg_config = Some gname /\
    font (ctx_config c) = Some f /\ version f = Some v /\
    SVGPath_fromstring L (ctx_svg c) tr = Ok o /\
    writeGlyphToString L gname
      {| glyph_width := gw; glyph_height := h; glyph_unicodes := unicodes |}
      o v = Ok glif /\
    (output_file opts (ctx_ufo c) gname ∉ readonly w1).
Proof.
  intros Hp Hl Hm. rewrite (main_entry L opts w c w1 svg_config Hp Hl) in Hm.
  apply convert_ok in Hm
    as (unicodes & gw & text & contents & gname & tr & glif & Hgw & _ & _
        & Hn & Htr & Hgl & Hro & _).
  apply make_glif_ok in Hgl as (n & h & f & v & o & Hn' & Hh & Hf & Hv & Ho & Hwr).
  rewrite Hn in Hn'. injection Hn' as <-.
  exists gw, h, unicodes, tr, gname, f, v, o, glif. auto 12.
Qed.

(** What a successful conversion computed, serialized and wrote. *)
Lemma convert_ok_glyph (L : library) (opts : options) (cfg : configuration)
    (width height : float) (name ufo_font_path family svg : string)
    (infoObject : InfoObject) (svg_config : svg_entry) (w w' : world) :
  convert L opts cfg width height name ufo_font_path family svg infoObject
    svg_config w = (Ok tt, w') ->
  exists g tr gname f v o glif text contents,
    unicodeVal L svg_config = Ok (glyph_unicodes g) /\
    glyphWidth width svg_config = Ok (glyph_width g) /\
    unitsPerEm infoObject = Some (glyph_height g) /\
    placement L cfg svg_config height = Ok tr /\
    glyph_name svg_config = Some gname /\
    font cfg = Some f /\ version f = Some v /\
    SVGPath_fromstring L svg tr = Ok o /\
    writeGlyphToString L gname g o v = Ok glif /\
    files w !! contentsPlistPath ufo_font_path = Some text /\
    readPlist L text = Ok contents /\
    let w2 := {| files := <[output_file opts ufo_font_path gname := glif]>
                            (files w);
                 readonly := readonly w;
                 stdout := stdout w ++
                   [Convert family name
                      (output_file opts ufo_font_path gname)] |} in
    if bool_decide (is_Some (contents !! gname)) then w' = w2
    else register L ufo_font_path (contentsPlistPath ufo_font_path) family
           gname contents w2 = (Ok tt, w').
Proof.
  unfold convert. intros H.
  apply bind_ok in H as (u & w0 & Hu & H). apply lift_ok in Hu as [Hu ->].
  apply bind_ok in H as (gw & w0 & Hg & H). apply lift_ok in Hg as [Hg ->].
  apply bind_ok in H as (contents & w0 & Hc & H).
  apply reraise_ok in Hc. apply bind_ok in Hc as (text & w0' & Ht & Hc).
  apply read_file_ok in Ht as [Ht ->]. apply lift_ok in Hc as [Hc ->].
  apply bind_ok in H as (gname & w0 & Hn & H). apply lift_ok in Hn as [Hn ->].
  apply getitem_ok in Hn.
  apply bind_ok in H as (tr & w0 & Htr & H). apply lift_ok in Htr as [Htr ->].
  apply bind_ok in H as (glif & w0 & Hgl & H). apply lift_ok in Hgl as [Hgl ->].
  apply bind_ok in H as ([] & w0 & Hw & H).
  apply write_file_ok in Hw as [Hro ->].
  apply bind_ok in H as ([] & w0 & Hp & H). apply print_ok in Hp as ->.
  apply make_glif_ok in Hgl
    as (n & h & f & v & o & Hn' & Hh & Hf & Hv & Ho & Hwr).
  rewrite Hn in Hn'. injection Hn' as <-.
  exists {| glyph_width := gw; glyph_height := h; glyph_unicodes := u |},
    tr, gname, f, v, o, glif, text, contents.
  cbn [glyph_width glyph_height glyph_unicodes].
  repeat (split; [assumption|]). simpl.
  destruct (bool_decide (is_Some (contents !! gname))); [|exact H].
  injection H as <-. reflexivity.
Qed.

(** C7: in a successful converting run, the text written to the output
    file is the serializer's text for a glyph whose height is the
    [unitsPerEm] of the font info (its width is the advance width, its
    code points those of the entry); the outline's own height goes into
    the placement transform only.  The run then ends there when the
    glyph is registered, and goes on with the registration from that
    world otherwise. *)
Theorem glyph_height_is_unitsPerEm (L : library) (opts : options)
    (w w1 w' : world) (c : context) (svg_config : svg_entry) :
  prelude L opts w = (Ok c, w1) ->
  lookup_entry (ctx_config c) (ctx_name c) = Ok svg_config ->
  main L opts w = (Ok tt, w') ->
  exists upm g tr gname f v o glif text contents,
    readInfo L (ctx_ufo c) (files w1) = Ok (ctx_info c) /\
    unitsPerEm (ctx_info c) = Some upm /\
    glyph_height g = upm /\
    glyphWidth (ctx_width c) svg_config = Ok (glyph_width g) /\
    unicodeVal L svg_config = Ok (glyph_unicodes g) /\
    placement L (ctx_config c) svg_config (ctx_height c) = Ok tr /\
    glyph_name svg_config = Some gname /\
    font (ctx_config c) = Some f /\ version f = Some v /\
    SVGPath_fromstring L (ctx_svg c) tr = Ok o /\
    writeGlyphToString L gname g o v = Ok glif /\
    files w1 !! contentsPlistPath (ctx_ufo c) = Some text /\
    readPlist L text = Ok contents /\
    let out := output_file opts (ctx_ufo c) gname in
    let w2 := {| files := <[out := glif]> (files w1);
                 readonly := readonly w1;
                 stdout := stdout w1 ++
                   [Convert (ctx_family c) (ctx_name c) out] |} in
    files w2 !! out = Some glif /\
    if bool_decide (is_Some (contents !! gname)) then w' = w2
    else register L (ctx_ufo c) (contentsPlistPath (ctx_ufo c))
           (ctx_family c) gname contents w2 = (Ok tt, w').
Proof.
  intros Hp Hl Hm. rewrite (main_entry L opts w c w1 svg_config Hp Hl) in Hm.
  apply convert_ok_glyph in Hm
    as (g & tr & gname & f & v & o & glif & text & contents & Hu & Hgw & Hh
        & Htr & Hn & Hf & Hv & Ho & Hwr & Ht & Hr & Hm).
  destruct (prelude_ok L opts w c w1 Hp)
    as (yt & root & fs1 & f' & _ & _ & _ & _ & _ & _ & _ & _ & _ & _ & Hi & _ & _ & ->).
  exists (glyph_height g), g, tr, gname, f, v, o, glif, text, contents.
  cbv zeta in *. cbn [files with_files] in *.
  split; [exact Hi|]. split; [exact Hh|]. split; [reflexivity|].
  repeat (split; [assumption|]).
  split; [apply lookup_insert_eq | exact Hm].
Qed.

(** The example of the specification: an outline of 100px by 200px, the
    entry [uni0041] with bearings 10 and 10 and offset 0, 1000 units per
    em, base transform (1,0,0,1,0,0); the serializer of this library
    shows width and height in its text. *)
Lemma glyph_height_is_unitsPerEm_witness :
  let w' := snd (main Demo3.lib (Demo.run "svgs/ka.svg") Demo.start) in
  exists g tr,
    glyph_height g = PyInt 1000 /\
    glyph_width g = PyFloat 120 /\
    tr = [PyFloat 1; PyFloat 0; PyFloat 0; PyFloat 1; PyFloat 10; PyFloat 200] /\
    writeGlyphToString Demo3.lib "uni0041" g ("svg 100px 200px"%string, tr) 2 =
      Ok "glif uni0041 width=120.0 height=1000"%string /\
    files w' !! "Font.ufo/glyphs/uni0041.glif"
      = Some "glif uni0041 width=120.0 height=1000"%string.
Proof.
  intros w'.
  destruct (glyph_height_is_unitsPerEm Demo3.lib (Demo.run "svgs/ka.svg")
              Demo.start
              {| files := <["Font.ufo/metainfo.plist" :=
                              "org.robofab.ufoLib 3"]> Demo.disk;
                 readonly := ∅; stdout := [] |}
              w'
              {| ctx_config := Demo.mapping; ctx_width := 100;
                 ctx_height := 200; ctx_name := "ka"; ctx_ufo := "Font.ufo";
                 ctx_info := {| familyName := Some "Gayathri";
                                unitsPerEm := Some (PyInt 1000) |};
                 ctx_family := "Gayathri"; ctx_svg := "svg 100px 200px" |}
              (Demo.entry "uni0041" 10 10 (Some 0)))
    as (upm & g & tr & gname & f & v & o & glif & text & contents & _ & Hu
        & Hh & Hw & _ & Htr & Hn & Hf & Hv & Ho & Hg & _).
  - vm_compute; reflexivity.
  - vm_compute; reflexivity.
  - vm_compute; reflexivity.
  - exists g, tr.
    injection Hu as <-. injection Hn as <-. injection Hf as <-.
    injection Hv as <-.
    vm_compute in Hw. injection Hw as Hw.
    vm_compute in Htr. injection Htr as <-.
    injection Ho as <-.
    split; [exact Hh|]. split; [symmetry; exact Hw|]. split; [reflexivity|].
    split; [|vm_compute; reflexivity].
    destruct g as [gw gh gu]. cbn [glyph_height glyph_width] in *.
    subst gw gh. vm_compute. reflexivity.
Defined.

(** C10: the advance width of the glyph handed to the serializer is a
    float: the outline's width, a float, to which the two bearings,
    converted to floats, are added; it is never an [int]. *)
Theorem advance_width_is_float (L : library) (opts : options)
    (w w1 w' : world) (c : context) (svg_config : svg_entry) :
  prelude L opts w = (Ok c, w1) ->
  lookup_entry (ctx_config c) (ctx_name c) = Ok svg_config ->
  main L opts w = (Ok tt, w') ->
  exists lv l lf rv r rf g gname v o glif,
    left svg_config = Some lv /\ py_int lv = Ok l /\ int_to_float l = Ok lf /\
    right svg_config = Some rv /\ py_int rv = Ok r /\ int_to_float r = Ok rf /\
    glyph_width g = PyFloat (ctx_width c + lf + rf)%float /\
    (forall z, glyph_width g <> PyInt z) /\
    writeGlyphToString L gname g o v = Ok glif.
Proof.
  intros Hp Hl Hm.
  destruct (run_emits L opts w w1 w' c svg_config Hp Hl Hm)
    as (gw & h & u & tr & gname & f & v & o & glif & Hgw & _ & _ & _ & _
        & _ & _ & Hwr & _).
  apply glyphWidth_ok in Hgw
    as (lv & l & lf & rv & r & rf & H1 & H2 & H3 & H4 & H5 & H6 & ->).
  exists lv, l, lf, rv, r, rf,
    {| glyph_width := PyFloat (ctx_width c + lf + rf)%float;
       glyph_height := h; glyph_unicodes := u |}, gname, v, o, glif.
  simpl. repeat (split; [assumption|]). split; [reflexivity|].
  split; [discriminate | exact Hwr].
Qed.

(** The outline [kha.svg] declares the width "100px", its entry the
    bearings 10 and 20: the glyph carries the float 130.0. *)
Lemma advance_width_is_float_witness :
  exists g,
    glyph_width g = PyFloat 130 /\ glyph_width g <> PyInt 130 /\
    writeGlyphToString Demo.lib "kha" g
      ("svg 100px 200px"%string,
       [PyFloat 1; PyFloat 0; PyFloat 0; PyFloat 1; PyFloat 10; PyFloat 200])
      2 = Ok "glif kha"%string.
Proof.
  destruct (advance_width_is_float Demo.lib (Demo.run "svgs/kha.svg")
              Demo.start Demo.start
              (snd (main Demo.lib (Demo.run "svgs/kha.svg") Demo.start))
              {| ctx_config := Demo.mapping; ctx_width := 100;
                 ctx_height := 200; ctx_name := "kha"; ctx_ufo := "Font.ufo";
                 ctx_info := {| familyName := Some "Gayathri";
                                unitsPerEm := Some (PyInt 1000) |};
                 ctx_family := "Gayathri"; ctx_svg := "svg 100px 200px" |}
              (Demo.entry "kha" 10 20 None))
    as (lv & l & lf & rv & r & rf & g & gname & v & o & glif & H1 & H2 & H3
        & H4 & H5 & H6 & Hw & Hne & _).
  - vm_compute; reflexivity.
  - vm_compute; reflexivity.
  - vm_compute; reflexivity.
  - exists g. injection H1 as <-. injection H4 as <-.
    injection H2 as <-. injection H5 as <-.
    vm_compute in H3. injection H3 as <-.
    vm_compute in H6. injection H6 as <-.
    split; [exact Hw|]. split; [apply Hne | reflexivity].
Defined.

(* ===================================================================== *)
(** ** Registration *)
(* ===================================================================== *)

Lemma bind_lift {A B} (r : res A) (k : A -> prog B) (w : world) :
  bind (lift r) k w =
  match r with
  | Ok a => k a w
  | Raise e => (Raise e, w)
  end.
Proof. unfold bind, lift. destruct r; reflexivity. Qed.

Lemma bind_write_file {B} (path s : string) (k : unit -> prog B) (w : world) :
  bind (write_file path s) k w =
  if decide (path ∈ readonly w) then (Raise (IOError path), w)
  else k tt (with_files w (<[path := s]> (files w))).
Proof. unfold bind, write_file. destruct (decide _); reflexivity. Qed.

Lemma bind_print {B} (m : message) (k : unit -> prog B) (w : world) :
  bind (print m) k w =
  k tt {| files := files w; readonly := readonly w; stdout := stdout w ++ [m] |}.
Proof. reflexivity. Qed.

Lemma append_nil_l (t : string) : EmptyString +:+ t = t.
Proof. reflexivity. Qed.

Lemma append_inj_l (s a b : string) : s +:+ a = s +:+ b -> a = b.
Proof.
  induction s as [|c s IH]; [trivial|].
  rewrite !append_cons. intros [= H]. exact (IH H).
Qed.

(** A glyph description never goes to the registry's path when the
    output path is the default one. *)
Lemma default_output_not_registry (opts : options) (ufo_font_path g : string) :
  outfile opts = None ->
  output_file opts ufo_font_path g <> contentsPlistPath ufo_font_path.
Proof.
  unfold output_file, contentsPlistPath. intros -> H.
  apply append_inj_l in H.
  change (String.append "/glyphs/" (g +:+ ".glif")
          = String.append "/glyphs/" "contents.plist") in H.
  apply append_inj_l in H.
  do 14 (destruct g as [|? g]; [rewrite append_nil_l in H; discriminate H|];
        rewrite append_cons in H; injection H as _ H).
  destruct g; [rewrite append_nil_l in H | rewrite append_cons in H];
    discriminate H.
Qed.

(** A run on a glyph the registry already has either fails with the
    world as it was, or writes the glyph description, prints the
    conversion notice and stops there. *)
Lemma convert_existing (L : library) (opts : options) (cfg : configuration)
    (width height : float) (name ufo_font_path family svg : string)
    (infoObject : InfoObject) (svg_config : svg_entry) (w : world)
    (gname text : string) (contents : gmap string string) :
  glyph_name svg_config = Some gname ->
  files w !! contentsPlistPath ufo_font_path = Some text ->
  readPlist L text = Ok contents ->
  is_Some (contents !! gname) ->
  (exists e,
     convert L opts cfg width height name ufo_font_path family svg
       infoObject svg_config w = (Raise e, w)) \/
  (exists glif,
     convert L opts cfg width height name ufo_font_path family svg
       infoObject svg_config w =
     (Ok tt,
      {| files := <[output_file opts ufo_font_path gname := glif]> (files w);
         readonly := readonly w;
         stdout := stdout w ++
           [Convert family name (output_file opts ufo_font_path gname)] |})).
Proof.
  intros Hn Ht Hr Hin. unfold convert.
  rewrite bind_lift. destruct (unicodeVal L svg_config) as [u|e];
    [|left; eauto].
  rewrite bind_lift. destruct (glyphWidth width svg_config) as [gw|e];
    [|left; eauto].
  rewrite (bind_eq _ _ w contents w).
  2:{ unfold reraise, bind, read_file, lift. rewrite Ht, Hr. reflexivity. }
  rewrite bind_lift, Hn. cbn [getitem].
  rewrite bind_lift. destruct (placement L cfg svg_config height) as [tr|e];
    [|left; eauto].
  rewrite bind_lift.
  destruct (make_glif L cfg svg_config infoObject svg gw u tr) as [glif|e];
    [|left; eauto].
  rewrite bind_write_file.
  destruct (decide (output_file opts ufo_font_path gname ∈ readonly w));
    [left; eauto|].
  rewrite bind_print, bool_decide_eq_true_2 by exact Hin.
  right. exists glif. reflexivity.
Qed.

(** C4, as the code has it: when the glyph name is a key of the registry
    the script reads, the script itself writes at most one file, the
    output file, and calls neither the registry writer nor the lib
    writer.  With [constructed] the files the construction of the UFO
    writer left: every path but the output path ends as in
    [constructed], hence as before the run wherever that construction
    changed nothing; the registry file is as before the run when the
    output path is not the registry's (never so for the default output
    path) and the construction left it alone; a successful run leaves
    [constructed] with the output file written, and prints the
    conversion notice only. *)
Theorem existing_glyph_only_overwritten (L : library) (opts : options)
    (w w1 : world) (c : context) (svg_config : svg_entry)
    (gname text : string) (contents : gmap string string) :
  prelude L opts w = (Ok c, w1) ->
  lookup_entry (ctx_config c) (ctx_name c) = Ok svg_config ->
  glyph_name svg_config = Some gname ->
  let constructed := snd (UFOWriter L (ctx_ufo c) (files w)) in
  constructed !! contentsPlistPath (ctx_ufo c) = Some text ->
  readPlist L text = Ok contents ->
  is_Some (contents !! gname) ->
  let out := output_file opts (ctx_ufo c) gname in
  let w' := snd (main L opts w) in
  (forall p, p <> out -> files w' !! p = constructed !! p) /\
  (forall p, p <> out -> constructed !! p = files w !! p ->
             files w' !! p = files w !! p) /\
  (out <> contentsPlistPath (ctx_ufo c) ->
   files w !! contentsPlistPath (ctx_ufo c) = Some text ->
   files w' !! contentsPlistPath (ctx_ufo c) = Some text) /\
  (outfile opts = None -> out <> contentsPlistPath (ctx_ufo c)) /\
  (fst (main L opts w) = Ok tt ->
   exists glif,
     files w' = <[out := glif]> constructed /\
     stdout w' = stdout w ++ [Convert (ctx_family c) (ctx_name c) out]).
Proof.
  intros Hp Hl Hn constructed Ht Hr Hin out w'.
  destruct (prelude_ok L opts w c w1 Hp)
    as (yt & root & fs1 & f & _ & _ & _ & _ & _ & _ & _ & _ & _ & Hw & _ & _ & _
        & Hw1).
  assert (Hc : constructed = files w1).
  { unfold constructed. rewrite Hw, Hw1. reflexivity. }
  rewrite Hc in Ht.
  assert (Hframe : forall p, p <> out -> files w' !! p = constructed !! p).
  { intros p Hne. subst w'. rewrite Hc.
    rewrite (main_entry L opts w c w1 svg_config Hp Hl).
    destruct (convert_existing L opts (ctx_config c) (ctx_width c)
                (ctx_height c) (ctx_name c) (ctx_ufo c) (ctx_family c)
                (ctx_svg c) (ctx_info c) svg_config w1 gname text contents
                Hn Ht Hr Hin) as [[e ->]|[glif ->]]; simpl; [reflexivity|].
    apply lookup_insert_ne. auto. }
  split; [exact Hframe|]. split.
  { intros p Hne Hsame. rewrite (Hframe p Hne). exact Hsame. }
  split.
  { intros Hne Hbefore. rewrite (Hframe _ (not_eq_sym Hne)), Hc. exact Ht. }
  split.
  { intros Hnone. apply default_output_not_registry, Hnone. }
  subst w'. rewrite (main_entry L opts w c w1 svg_config Hp Hl).
  destruct (convert_existing L opts (ctx_config c) (ctx_width c)
              (ctx_height c) (ctx_name c) (ctx_ufo c) (ctx_family c)
              (ctx_svg c) (ctx_info c) svg_config w1 gname text contents
              Hn Ht Hr Hin) as [[e ->]|[glif ->]]; simpl; [discriminate|].
  intros _. exists glif. rewrite Hc. split; [reflexivity|].
  rewrite Hw1. reflexivity.
Qed.

(** The outline [ga.svg] maps to the glyph [ga], which the registry of
    the sample font already has; the writer's construction rewrites
    [metainfo.plist]. *)
Lemma existing_glyph_only_overwritten_witness :
  let w' := snd (main Demo3.lib (Demo.run "svgs/ga.svg") Demo.start) in
  files w' !! "Font.ufo/glyphs/contents.plist" = Some "ga ga.glif"%string /\
  files w' !! "Font.ufo/lib.plist" = Some "ga"%string /\
  exists glif,
    files w' = <["Font.ufo/glyphs/ga.glif" := glif]>
                 (<["Font.ufo/metainfo.plist" := "org.robofab.ufoLib 3"]>
                    Demo.disk) /\
    stdout w' = [Convert "Gayathri" "ga" "Font.ufo/glyphs/ga.glif"].
Proof.
  destruct (existing_glyph_only_overwritten Demo3.lib
              (Demo.run "svgs/ga.svg") Demo.start
              {| files := <["Font.ufo/metainfo.plist" :=
                              "org.robofab.ufoLib 3"]> Demo.disk;
                 readonly := ∅; stdout := [] |}
              {| ctx_config := Demo.mapping; ctx_width := 60;
                 ctx_height := 80; ctx_name := "ga"; ctx_ufo := "Font.ufo";
                 ctx_info := {| familyName := Some "Gayathri";
                                unitsPerEm := Some (PyInt 1000) |};
                 ctx_family := "Gayathri"; ctx_svg := "svg 60px 80px" |}
              (Demo.entry "ga" 5 0 None) "ga" "ga ga.glif"
              (<["ga" := "ga.glif"]> ∅))
    as (_ & Hframe & Hreg & Hdef & Hok).
  - vm_compute; reflexivity.
  - vm_compute; reflexivity.
  - reflexivity.
  - vm_compute; reflexivity.
  - vm_compute; reflexivity.
  - exists "ga.glif"%string. vm_compute; reflexivity.
  - split.
    { apply Hreg; [apply Hdef; reflexivity | vm_compute; reflexivity]. }
    split.
    { rewrite (Hframe "Font.ufo/lib.plist"); [vm_compute; reflexivity | |].
      - intros H; vm_compute in H; discriminate H.
      - vm_compute; reflexivity. }
    exact (Hok ltac:(vm_compute; reflexivity)).
Defined.

(** The claim as the specification words it fails on two inputs.  With a
    writer whose construction rewrites [metainfo.plist], a successful
    run on the registered glyph [ga] overwrites that file too, which is
    not the glyph description.  And when the output path given on the
    command line is the registry's, the registry file ends up holding
    the glyph description. *)
Lemma existing_glyph_only_overwritten_counterexample :
  readPlist Demo.lib "ga ga.glif" = Ok (<["ga" := "ga.glif"]> ∅) /\
  files Demo.start !! "Font.ufo/glyphs/contents.plist"
    = Some "ga ga.glif"%string /\
  (let r := main Demo3.lib (Demo.run "svgs/ga.svg") Demo.start in
   fst r = Ok tt /\
   output_file (Demo.run "svgs/ga.svg") "Font.ufo" "ga"
     = "Font.ufo/glyphs/ga.glif"%string /\
   files Demo.start !! "Font.ufo/metainfo.plist" = Some "3"%string /\
   files (snd r) !! "Font.ufo/metainfo.plist"
     = Some "org.robofab.ufoLib 3"%string /\
   files (snd r) !! "Font.ufo/metainfo.plist"
     <> files Demo.start !! "Font.ufo/metainfo.plist") /\
  (let r := main Demo.lib
              (Demo3.run_to "svgs/ga.svg" "Font.ufo/glyphs/contents.plist")
              Demo.start in
   fst r = Ok tt /\
   files (snd r) !! "Font.ufo/glyphs/contents.plist" = Some "glif ga"%string /\
   files (snd r) !! "Font.ufo/glyphs/contents.plist"
     <> files Demo.start !! "Font.ufo/glyphs/contents.plist").
Proof.
  cbv zeta.
  repeat split; try (vm_compute; reflexivity);
    intros H; vm_compute in H; discriminate H.
Qed.

(** C3: when the glyph name is not a key of the registry, a successful
    run wrote the registry extended with the mapping from the name to
    the name followed by ".glif", then read the lib, appended the name
    to [public.glyphOrder] and had the lib written: both structures
    hold the name at the end of the run. *)
Theorem new_glyph_registered (L : library) (opts : options)
    (w w1 w' : world) (c : context) (svg_config : svg_entry)
    (gname text : string) (contents : gmap string string) :
  prelude L opts w = (Ok c, w1) ->
  lookup_entry (ctx_config c) (ctx_name c) = Ok svg_config ->
  glyph_name svg_config = Some gname ->
  files w1 !! contentsPlistPath (ctx_ufo c) = Some text ->
  readPlist L text = Ok contents ->
  contents !! gname = None ->
  main L opts w = (Ok tt, w') ->
  let out := output_file opts (ctx_ufo c) gname in
  let contents' := <[gname := gname +:+ ".glif"]> contents in
  exists glif lib_obj order,
    let fs2 := <[contentsPlistPath (ctx_ufo c) := plist_dumps L contents']>
                 (<[out := glif]> (files w1)) in
    let order' := order ++ [PString gname] in
    contents' !! gname = Some (gname +:+ ".glif") /\
    readLib L (ctx_ufo c) fs2 = Ok lib_obj /\
    lib_obj !! "public.glyphOrder" = Some (PArray order) /\
    writeLib L (ctx_ufo c)
      (<["public.glyphOrder" := PArray order']> lib_obj) fs2
      = (Ok tt, files w') /\
    PString gname ∈ order' /\
    stdout w' = stdout w ++
      [Convert (ctx_family c) (ctx_name c) out;
       Add (ctx_family c) gname (gname +:+ ".glif")].
Proof.
  intros Hp Hl Hn Ht Hr Hnew Hm out contents'.
  rewrite (main_entry L opts w c w1 svg_config Hp Hl) in Hm.
  apply convert_ok in Hm
    as (u & gw & text' & contents0 & gname' & tr & glif & _ & Ht' & Hr' & Hn'
        & _ & _ & _ & Hm).
  rewrite Hn in Hn'. injection Hn' as <-.
  rewrite Ht in Ht'. injection Ht' as <-.
  rewrite Hr in Hr'. injection Hr' as <-.
  cbv zeta in Hm. rewrite bool_decide_eq_false_2 in Hm.
  2:{ rewrite Hnew. intros [x Hx]. discriminate Hx. }
  apply register_ok in Hm as (lib_obj & order & _ & Hm). cbv zeta in Hm.
  destruct Hm as (Hrl & Ho & Hwl & _ & Hout). simpl in *.
  exists glif, lib_obj, order. cbv zeta.
  split; [apply lookup_insert_eq|]. split; [exact Hrl|]. split; [exact Ho|].
  split; [exact Hwl|]. split.
  - apply elem_of_app. right. apply list_elem_of_singleton. reflexivity.
  - rewrite Hout, <- app_assoc.
    destruct (prelude_ok L opts w c w1 Hp)
      as (yt & root & fs1 & f & _ & _ & _ & _ & _ & _ & _ & _ & _ & _ & _ & _ & _ & ->).
    reflexivity.
Qed.

(** The outline [ka.svg] maps to the glyph [uni0041], new to the sample
    font: registry and order both end with it. *)
Lemma new_glyph_registered_witness :
  let w' := snd (main Demo.lib (Demo.run "svgs/ka.svg") Demo.start) in
  (exists order,
     PString "uni0041" ∈ order ++ [PString "uni0041"] /\
     (<["uni0041" := "uni0041.glif"]> (<["ga" := "ga.glif"]> ∅)
        : gmap string string) !! "uni0041" = Some "uni0041.glif"%string) /\
  files w' !! "Font.ufo/glyphs/contents.plist"
    = Some "ga ga.glif uni0041 uni0041.glif"%string /\
  files w' !! "Font.ufo/lib.plist" = Some "ga uni0041"%string /\
  stdout w' = [Convert "Gayathri" "ka" "Font.ufo/glyphs/uni0041.glif";
               Add "Gayathri" "uni0041" "uni0041.glif"].
Proof.
  destruct (new_glyph_registered Demo.lib (Demo.run "svgs/ka.svg")
              Demo.start Demo.start
              (snd (main Demo.lib (Demo.run "svgs/ka.svg") Demo.start))
              {| ctx_config := Demo.mapping; ctx_width := 100;
                 ctx_height := 200; ctx_name := "ka"; ctx_ufo := "Font.ufo";
                 ctx_info := {| familyName := Some "Gayathri";
                                unitsPerEm := Some (PyInt 1000) |};
                 ctx_family := "Gayathri"; ctx_svg := "svg 100px 200px" |}
              (Demo.entry "uni0041" 10 10 (Some 0)) "uni0041" "ga ga.glif"
              (<["ga" := "ga.glif"]> ∅))
    as (glif & lib_obj & order & Hc & _ & _ & _ & Hin & Hout).
  - vm_compute; reflexivity.
  - vm_compute; reflexivity.
  - reflexivity.
  - vm_compute; reflexivity.
  - vm_compute; reflexivity.
  - vm_compute; reflexivity.
  - vm_compute; reflexivity.
  - split; [exists order; split; [exact Hin | exact Hc]|].
    split; [vm_compute; reflexivity|]. split; [vm_compute; reflexivity|].
    exact Hout.
Defined.

(* ===================================================================== *)
(** ** Splitting an argument into tokens *)
(* ===================================================================== *)

Lemma str_forall_app (P : ascii -> bool) (a b : string) :
  str_forall P (a +:+ b) = str_forall P a && str_forall P b.
Proof.
  induction a as [|c a IH]; [reflexivity|].
  rewrite append_cons. cbn [str_forall]. rewrite IH, andb_assoc. reflexivity.
Qed.

Lemma is_empty_app_char (t : string) (c : ascii) :
  is_empty (t +:+ String c EmptyString) = false.
Proof. destruct t; reflexivity. Qed.

(** With "," for [old], a replacement never skips: the text is mapped
    character by character. *)
Lemma replace_comma_cons (c : ascii) (s : string) :
  str_replace "," " " (String c s) =
  String (if Ascii.eqb "," c then " "%char else c) (str_replace "," " " s).
Proof.
  unfold str_replace. cbn [replace_from startswith].
  destruct (Ascii.eqb "," c); reflexivity.
Qed.

Lemma replace_comma_app (a b : string) :
  str_replace "," " " (a +:+ b) =
  str_replace "," " " a +:+ str_replace "," " " b.
Proof.
  induction a as [|c a IH]; [reflexivity|].
  rewrite append_cons, !replace_comma_cons, append_cons, IH. reflexivity.
Qed.

Lemma replace_comma_clean (s : string) :
  str_forall (fun c => negb (Ascii.eqb c ",")) (str_replace "," " " s) = true.
Proof.
  induction s as [|c s IH]; [reflexivity|].
  rewrite replace_comma_cons. cbn [str_forall]. rewrite IH, andb_true_r.
  destruct (Ascii.eqb "," c) eqn:E; [reflexivity|].
  rewrite Ascii.eqb_sym. rewrite E. reflexivity.
Qed.

Lemma split_from_clean (P : ascii -> bool) (tok s : string) :
  str_forall (fun c => negb (is_space c) && P c) tok = true ->
  str_forall P s = true ->
  Forall (fun t => is_empty t = false /\
                   str_forall (fun c => negb (is_space c) && P c) t = true)
    (split_from tok s).
Proof.
  revert tok. induction s as [|c s IH]; intros tok Htok Hs.
  - cbn [split_from]. destruct (is_empty tok) eqn:E; constructor; auto.
  - cbn [str_forall] in Hs. apply andb_true_iff in Hs as [Hc Hs].
    cbn [split_from]. destruct (is_space c) eqn:Ec.
    + destruct (is_empty tok) eqn:E.
      * apply IH; [reflexivity | exact Hs].
      * constructor; [auto|]. apply IH; [reflexivity | exact Hs].
    + apply IH; [|exact Hs]. rewrite str_forall_app, Htok.
      cbn [str_forall]. rewrite Ec, Hc. reflexivity.
Qed.

(** X1: the tokens [split] returns are not empty and hold neither a
    blank nor a comma. *)
Theorem split_tokens_clean (arg : string) :
  Forall (fun t => is_empty t = false /\
                   str_forall (fun c => negb (is_space c) &&
                                        negb (Ascii.eqb c ",")) t = true)
    (split arg).
Proof.
  unfold split, str_split. apply split_from_clean; [reflexivity|].
  apply replace_comma_clean.
Qed.

Lemma split_from_app_space (tok a b : string) (c : ascii) :
  is_space c = true ->
  split_from tok (a +:+ String c b) =
  split_from tok a ++ split_from EmptyString b.
Proof.
  intros Hc. revert tok. induction a as [|x a IH]; intros tok.
  - rewrite append_nil_l. cbn [split_from]. rewrite Hc.
    destruct (is_empty tok); reflexivity.
  - rewrite append_cons. cbn [split_from]. destruct (is_space x).
    + destruct (is_empty tok); rewrite IH; reflexivity.
    + apply IH.
Qed.

(** X2: a comma and a blank separate alike: the tokens of two texts
    joined by either are the tokens of the first followed by those of
    the second. *)
Theorem split_separator (a b : string) :
  split (a +:+ "," +:+ b) = split a ++ split b /\
  split (a +:+ " " +:+ b) = split a ++ split b.
Proof.
  unfold split, str_split. split.
  - rewrite !replace_comma_app.
    change (str_replace "," " " ",") with " "%string.
    apply (split_from_app_space _ _ _ " "%char). reflexivity.
  - rewrite !replace_comma_app.
    change (str_replace "," " " " ") with " "%string.
    apply (split_from_app_space _ _ _ " "%char). reflexivity.
Qed.

(* ===================================================================== *)
(** ** Lists of numbers read from an argument *)
(* ===================================================================== *)

Lemma res_map_ok {A B} (g : A -> res B) (l : list A) (ys : list B) :
  res_map g l = Ok ys <-> Forall2 (fun x y => g x = Ok y) l ys.
Proof.
  revert ys. induction l as [|x l IH]; intros ys; cbn [res_map].
  - split; [intros [= <-]; constructor | intros H; inversion H; reflexivity].
  - split.
    + intros H. apply res_bind_ok in H as (y & Hy & H).
      apply res_bind_ok in H as (ys' & Hys & [= <-]).
      constructor; [exact Hy | apply IH, Hys].
    + intros H. inversion H as [|x' y l' ys' Hy Hys]; subst.
      rewrite Hy. cbn [res_bind]. apply IH in Hys. rewrite Hys. reflexivity.
Qed.

Lemma res_map_raise {A B} (g : A -> res B) (l : list A) (e : exn) :
  res_map g l = Raise e -> Exists (fun x => g x = Raise e) l.
Proof.
  induction l as [|x l IH]; cbn [res_map]; [discriminate|].
  destruct (g x) as [y|e'] eqn:Ex; cbn [res_bind].
  - destruct (res_map g l) as [ys|e'']; cbn [res_bind]; [discriminate|].
    intros [= <-]. right. apply IH. reflexivity.
  - intros [= <-]. left. exact Ex.
Qed.

Lemma py_float_cases (L : library) (n : string) :
  (exists f, float_literal L (str_strip n) = Some f /\ py_float L n = Ok f) \/
  (float_literal L (str_strip n) = None /\ py_float L n = Raise ValueError).
Proof.
  unfold py_float. destruct (float_literal L (str_strip n)); eauto.
Qed.

(** X3: [transform_list] succeeds exactly when every token of the
    argument is a float literal, and then returns those floats, one per
    token and in order; otherwise some token is no literal and the
    exception is the [ArgumentTypeError] that quotes the argument. *)
Theorem transform_list_spec (L : library) (arg : string) :
  (forall tr,
     transform_list L arg = Ok tr <->
     Forall2 (fun n x => exists f, float_literal L (str_strip n) = Some f /\
                                   x = PyFloat f) (split arg) tr) /\
  (forall e,
     transform_list L arg = Raise e ->
     e = ArgumentTypeError "Invalid transformation matrix" arg /\
     Exists (fun n => float_literal L (str_strip n) = None) (split arg)).
Proof.
  unfold transform_list, except_ValueError.
  set (g := fun n => (let* f := py_float L n in Ok (PyFloat f))%res).
  assert (Hg : forall n x, g n = Ok x <->
             exists f, float_literal L (str_strip n) = Some f /\ x = PyFloat f).
  { intros n x. unfold g.
    destruct (py_float_cases L n) as [(f & Hf & ->)|(Hf & ->)];
      cbn [res_bind]; rewrite Hf; split.
    - intros [= <-]. eauto.
    - intros (f' & [= <-] & ->). reflexivity.
    - discriminate.
    - intros (f' & [=] & _). }
  assert (Hr : forall n e, g n = Raise e ->
             e = ValueError /\ float_literal L (str_strip n) = None).
  { intros n e. unfold g.
    destruct (py_float_cases L n) as [(f & Hf & ->)|(Hf & ->)];
      cbn [res_bind]; [discriminate|]. intros [= <-]. auto. }
  split.
  - intros tr.
    assert (Hm : res_map g (split arg) = Ok tr <->
                 Forall2 (fun n x => exists f,
                            float_literal L (str_strip n) = Some f /\
                            x = PyFloat f) (split arg) tr).
    { rewrite res_map_ok.
      split; intros H; (eapply Forall2_impl; [exact H|]); intros n x;
        apply Hg. }
    rewrite <- Hm. destruct (res_map g (split arg)) as [l|[]];
      split; congruence.
  - intros e H. destruct (res_map g (split arg)) as [l|e0] eqn:E;
      [discriminate|].
    apply res_map_raise in E.
    assert (He0 : e0 = ValueError).
    { apply Exists_exists in E as (n & _ & Hn). apply (Hr n e0 Hn). }
    subst e0. injection H as <-. split; [reflexivity|].
    eapply Exists_impl; [exact E|]. intros n Hn. apply (Hr n _ Hn).
Qed.

(** X4: [unicode_hex_list] succeeds exactly when every token of its
    argument is a base-16 integer literal, and then returns the code
    points, one per token and in order; otherwise some token is no
    literal and the exception is the [ArgumentTypeError] that quotes the
    argument. *)
Theorem unicode_hex_list_spec (L : library) (arg : string) :
  (forall l,
     unicode_hex_list L arg = Ok l <->
     Forall2 (fun n z => int_literal L 16 n = Some z) (split arg) l) /\
  (forall e,
     unicode_hex_list L arg = Raise e ->
     e = ArgumentTypeError "Invalid unicode hexadecimal value" arg /\
     Exists (fun n => int_literal L 16 n = None) (split arg)).
Proof.
  unfold unicode_hex_list, except_ValueError.
  assert (Hg : forall n z, py_int16 L n = Ok z <-> int_literal L 16 n = Some z).
  { intros n z. unfold py_int16. destruct (int_literal L 16 n);
      split; congruence. }
  assert (Hr : forall n e, py_int16 L n = Raise e ->
             e = ValueError /\ int_literal L 16 n = None).
  { intros n e. unfold py_int16. destruct (int_literal L 16 n);
      [discriminate|]. intros [= <-]. auto. }
  split.
  - intros l.
    assert (Hm : res_map (py_int16 L) (split arg) = Ok l <->
                 Forall2 (fun n z => int_literal L 16 n = Some z)
                   (split arg) l).
    { rewrite res_map_ok.
      split; intros H; (eapply Forall2_impl; [exact H|]); intros n x;
        apply Hg. }
    rewrite <- Hm. destruct (res_map (py_int16 L) (split arg)) as [l'|[]];
      split; congruence.
  - intros e H.
    destruct (res_map (py_int16 L) (split arg)) as [l|e0] eqn:E;
      [discriminate|].
    apply res_map_raise in E.
    assert (He0 : e0 = ValueError).
    { apply Exists_exists in E as (n & _ & Hn). apply (Hr n e0 Hn). }
    subst e0. injection H as <-. split; [reflexivity|].
    eapply Exists_impl; [exact E|]. intros n Hn. apply (Hr n _ Hn).
Qed.

(* ===================================================================== *)
(** ** The name of the outline *)
(* ===================================================================== *)

Lemma basename_from_plain (cur p : string) :
  str_forall (fun c => negb (Ascii.eqb c "/")) p = true ->
  basename_from cur p = cur +:+ p.
Proof.
  revert cur. induction p as [|c p IH]; intros cur H.
  - cbn [basename_from]. induction cur as [|x cur IHc]; [reflexivity|].
    rewrite append_cons, <- IHc. reflexivity.
  - cbn [str_forall] in H. apply andb_true_iff in H as [Hc Hp].
    cbn [basename_from]. destruct (Ascii.eqb c "/"); [discriminate Hc|].
    rewrite (IH _ Hp). clear. induction cur as [|x cur IHc]; [reflexivity|].
    rewrite !append_cons, IHc. reflexivity.
Qed.

Lemma basename_from_dir (cur dir file : string) :
  basename_from cur (dir +:+ String "/" file) = basename_from EmptyString file.
Proof.
  revert cur. induction dir as [|c dir IH]; intros cur.
  - rewrite append_nil_l. reflexivity.
  - rewrite append_cons. cbn [basename_from].
    destruct (Ascii.eqb c "/"); apply IH.
Qed.

Lemma rfind_dot_none (s : string) :
  str_forall (fun c => negb (Ascii.eqb c ".")) s = true -> rfind_dot s = None.
Proof.
  induction s as [|c s IH]; [reflexivity|]. cbn [str_forall rfind_dot].
  intros H. apply andb_true_iff in H as [Hc Hs]. rewrite (IH Hs).
  destruct (Ascii.eqb c "."); [discriminate Hc | reflexivity].
Qed.

Lemma rfind_dot_last (stem ext : string) :
  str_forall (fun c => negb (Ascii.eqb c ".")) ext = true ->
  rfind_dot (stem +:+ String "." ext) = Some (String.length stem).
Proof.
  intros He. induction stem as [|c stem IH].
  - rewrite append_nil_l. cbn [rfind_dot]. rewrite (rfind_dot_none ext He).
    reflexivity.
  - rewrite append_cons. cbn [rfind_dot]. rewrite IH. reflexivity.
Qed.

Lemma substring_prefix (a b : string) :
  String.substring 0 (String.length a) (a +:+ b) = a.
Proof.
  induction a as [|c a IH].
  - rewrite append_nil_l. destruct b; reflexivity.
  - rewrite append_cons. cbn [String.length String.substring].
    rewrite IH. reflexivity.
Qed.

(** X5: for an outline [dir/stem.ext], or [stem.ext] without directory,
    whose [stem] and [ext] hold no slash and whose [ext] holds no dot,
    the name the script looks up is [stem]; a stem that is empty or made
    of dots only keeps the extension, so the name is [stem.ext]. *)
Theorem outline_name (dir stem ext : string) :
  str_forall (fun c => negb (Ascii.eqb c "/")) stem = true ->
  str_forall (fun c => negb (Ascii.eqb c "/")) ext = true ->
  str_forall (fun c => negb (Ascii.eqb c ".")) ext = true ->
  let file := stem +:+ "." +:+ ext in
  let name := if all_dots stem then file else stem in
  splitext_root (basename (dir +:+ "/" +:+ file)) = name /\
  splitext_root (basename file) = name.
Proof.
  intros Hs He Hd file name.
  assert (Hfile : str_forall (fun c => negb (Ascii.eqb c "/")) file = true).
  { unfold file. rewrite !str_forall_app, Hs, He. reflexivity. }
  assert (Hb1 : basename (dir +:+ "/" +:+ file) = file).
  { unfold basename.
    change (dir +:+ "/" +:+ file) with (dir +:+ String "/" file).
    rewrite basename_from_dir. apply (basename_from_plain EmptyString file Hfile). }
  assert (Hb2 : basename file = file).
  { apply (basename_from_plain EmptyString file Hfile). }
  assert (Hroot : splitext_root file = name).
  { unfold splitext_root, file.
    change (stem +:+ "." +:+ ext) with (stem +:+ String "." ext).
    rewrite (rfind_dot_last stem ext Hd). cbv zeta.
    rewrite substring_prefix. reflexivity. }
  rewrite Hb1, Hb2. auto.
Qed.

Lemma outline_name_witness :
  splitext_root (basename "sources/svgs/ka.svg") = "ka"%string /\
  splitext_root (basename ".svg") = ".svg"%string.
Proof.
  split.
  - exact (proj1 (outline_name "sources/svgs" "ka" "svg"
                    eq_refl eq_refl eq_refl)).
  - exact (proj2 (outline_name "" "" "svg" eq_refl eq_refl eq_refl)).
Defined.

Lemma basename_clean (p : string) :
  str_forall (fun c => negb (Ascii.eqb c "/")) (basename p) = true.
Proof.
  unfold basename.
  assert (H : forall cur,
            str_forall (fun c => negb (Ascii.eqb c "/")) cur = true ->
            str_forall (fun c => negb (Ascii.eqb c "/"))
              (basename_from cur p) = true).
  { induction p as [|c p IH]; intros cur Hc; cbn [basename_from];
      [exact Hc|].
    destruct (Ascii.eqb c "/") eqn:E; [apply IH; reflexivity|].
    apply IH. rewrite str_forall_app, Hc. cbn [str_forall]. rewrite E.
    reflexivity. }
  apply H. reflexivity.
Qed.

Lemma substring_forall (P : ascii -> bool) (n : nat) (s : string) :
  str_forall P s = true -> str_forall P (String.substring 0 n s) = true.
Proof.
  revert n. induction s as [|c s IH]; intros n H.
  - destruct n; reflexivity.
  - cbn [str_forall] in H. apply andb_true_iff in H as [Hc Hs].
    destruct n as [|n]; [reflexivity|]. cbn [String.substring str_forall].
    rewrite Hc, (IH n Hs). reflexivity.
Qed.

(** X6: whatever the path of the outline, the name the script looks up
    in the mapping holds no slash. *)
Theorem outline_name_no_slash (svg_file : string) :
  str_forall (fun c => negb (Ascii.eqb c "/"))
    (splitext_root (basename svg_file)) = true.
Proof.
  pose proof (basename_clean svg_file) as H. unfold splitext_root.
  destruct (rfind_dot (basename svg_file)) as [d|]; [|exact H].
  cbv zeta. destruct (all_dots _); [exact H|].
  apply substring_forall, H.
Qed.

(* ===================================================================== *)
(** ** Declared sizes: other shapes *)
(* ===================================================================== *)

Lemma replace_no_px (s : string) :
  contains_px s = false -> str_replace "px" " " s = s.
Proof.
  unfold str_replace. induction s as [|c s IH]; [reflexivity|].
  cbn [contains_px]. intros H. apply orb_false_iff in H as [Hp Hc].
  cbn [replace_from]. rewrite Hp, (IH Hc). reflexivity.
Qed.

(** The first "px" of a text becomes a blank, what precedes it stays. *)
Lemma replace_px_first (a b : string) :
  contains_px a = false ->
  str_replace "px" " " (a +:+ "px" +:+ b) =
  a +:+ " " +:+ str_replace "px" " " b.
Proof.
  unfold str_replace. induction a as [|c a IH].
  - intros _. rewrite !append_nil_l. reflexivity.
  - cbn [contains_px]. intros H. apply orb_false_iff in H as [Hp Hc].
    rewrite !(append_cons c a). cbn [replace_from].
    assert (Hp' : startswith "px" (String c (a +:+ "px" +:+ b)) = false).
    { cbn [startswith] in *. destruct (Ascii.eqb "p" c); [|reflexivity].
      destruct a as [|c2 a]; [reflexivity|].
      rewrite (append_cons c2 a). cbn [startswith andb] in *.
      destruct (Ascii.eqb "x" c2); [discriminate Hp|reflexivity]. }
    rewrite Hp'. f_equal. apply IH, Hc.
Qed.

Lemma strip_leading_space (c : ascii) (s : string) :
  is_space c = true -> str_strip (String c s) = str_strip s.
Proof.
  intros Hc. unfold str_strip. cbn [rstrip]. rewrite Hc.
  destruct (rstrip s) as [|x r] eqn:E; cbn [is_empty andb lstrip];
    [reflexivity|]. rewrite Hc. reflexivity.
Qed.

(** X7: a declared size without "px" goes to [float()] as it is, and an
    outline without the attribute ends the reading with the [KeyError]
    of that attribute. *)
Theorem svg_dimension_plain (L : library) (root : element) (key : string) :
  (forall a, attrib root !! key = Some a -> contains_px a = false ->
             svg_dimension L root key = py_float L a) /\
  (attrib root !! key = None ->
   svg_dimension L root key = Raise (KeyError key)).
Proof.
  unfold svg_dimension. split.
  - intros a Ha Hp. rewrite Ha. cbn [getitem res_bind].
    rewrite (replace_no_px a Hp). reflexivity.
  - intros ->. reflexivity.
Qed.

(** X8: the reader blanks a "px" wherever it stands, so a size written
    with the unit first, "px" then the number, is read as the number. *)
Theorem svg_dimension_unit_first (L : library) (root : element)
    (key s : string) :
  attrib root !! key = Some ("px" +:+ s) ->
  contains_px s = false ->
  svg_dimension L root key = py_float L s.
Proof.
  intros Ha Hs. unfold svg_dimension. rewrite Ha. cbn [getitem res_bind].
  change ("px" +:+ s) with (EmptyString +:+ "px" +:+ s).
  rewrite (replace_px_first EmptyString s eq_refl), append_nil_l.
  rewrite (replace_no_px s Hs). unfold py_float.
  change (" " +:+ s) with (String " " s).
  rewrite strip_leading_space by reflexivity. reflexivity.
Qed.

Lemma svg_dimension_unit_first_witness :
  svg_dimension Demo.lib
    {| tag := "svg"; attrib := <["width" := "px10"]> ∅ |} "width"
  = Ok 10%float.
Proof.
  exact (svg_dimension_unit_first Demo.lib
           {| tag := "svg"; attrib := <["width" := "px10"]> ∅ |}
           "width" "10" eq_refl eq_refl).
Defined.

(* ===================================================================== *)
(** ** Placement: any number of coefficients *)
(* ===================================================================== *)

Lemma list_getitem_ok {A} (l : list A) (i : nat) (a : A) :
  list_getitem l i = Ok a <-> l !! i = Some a.
Proof.
  unfold list_getitem. destruct (l !! i); split; congruence.
Qed.

Lemma floats_lookup (tr : list pynum) (i : nat) (x : pynum) :
  Forall (fun x => exists f, x = PyFloat f) tr ->
  tr !! i = Some x -> exists f, x = PyFloat f.
Proof. intros H Hi. exact (proj1 (Forall_lookup _ _) H i x Hi). Qed.

(** X9: whenever the placement transform is computed, the base
    transform has at least six coefficients, the result has as many,
    its fifth and sixth are the base ones plus the left bearing and plus
    height and offset, and every other coefficient is the base one. *)
Theorem placement_frame (L : library) (cfg : configuration)
    (svg_config : svg_entry) (height : float) (tr : list pynum) :
  placement L cfg svg_config height = Ok tr ->
  exists f t tr0 e0 f0 lv l lf bz bf,
    font cfg = Some f /\ transform f = Some t /\
    transform_list L t = Ok tr0 /\
    left svg_config = Some lv /\ py_int lv = Ok l /\ int_to_float l = Ok lf /\
    base_offset svg_config = Ok bz /\ int_to_float bz = Ok bf /\
    tr0 !! 4%nat = Some (PyFloat e0) /\ tr0 !! 5%nat = Some (PyFloat f0) /\
    tr !! 4%nat = Some (PyFloat (e0 + lf)%float) /\
    tr !! 5%nat = Some (PyFloat (f0 + (height + bf))%float) /\
    length tr = length tr0 /\ (6 <= length tr0)%nat /\
    (forall i, i <> 4%nat -> i <> 5%nat -> tr !! i = tr0 !! i).
Proof.
  unfold placement. intros H.
  apply res_bind_ok in H as (f & Hf & H). apply getitem_ok in Hf.
  apply res_bind_ok in H as (t & Ht & H). apply getitem_ok in Ht.
  apply res_bind_ok in H as (tr0 & Htr & H).
  apply res_bind_ok in H as (bz & Hb & H).
  apply res_bind_ok in H as (t4 & H4 & H). apply list_getitem_ok in H4.
  apply res_bind_ok in H as (lv & Hlv & H). apply getitem_ok in Hlv.
  apply res_bind_ok in H as (l & Hl & H).
  apply res_bind_ok in H as (x & Hx & H).
  pose proof (transform_list_floats L t tr0 Htr) as Hfl.
  destruct (floats_lookup tr0 4 t4 Hfl H4) as [e0 ->].
  apply py_add_float_int in Hx as (lf & Hlf & ->).
  cbv zeta in H.
  apply res_bind_ok in H as (t5 & H5 & H). apply list_getitem_ok in H5.
  rewrite list_lookup_insert_ne in H5 by discriminate.
  destruct (floats_lookup tr0 5 t5 Hfl H5) as [f0 ->].
  apply res_bind_ok in H as (hb & Hhb & H).
  apply py_add_float_int in Hhb as (bf & Hbf & ->).
  cbn [py_add] in H. apply res_bind_ok in H as (y & [= <-] & [= <-]).
  assert (Hlen5 : (5 < length tr0)%nat) by (eapply lookup_lt_Some; eauto).
  exists f, t, tr0, e0, f0, lv, l, lf, bz, bf.
  repeat (split; [assumption|]).
  split. { rewrite list_lookup_insert_ne by discriminate.
           apply list_lookup_insert_eq. lia. }
  split. { apply list_lookup_insert_eq. rewrite length_insert. lia. }
  split. { rewrite !length_insert. reflexivity. }
  split; [lia|]. intros i Hi4 Hi5.
  rewrite !list_lookup_insert_ne by auto. reflexivity.
Qed.

(** A base transform of seven coefficients: the seventh stays. *)
Lemma placement_frame_witness :
  exists tr,
    placement Demo.lib
      {| font := Some {| ufo := Some "Font.ufo";
                         transform := Some "1 0 0 1 0 0 9";
                         version := Some 2 |};
         svgs := None |}
      (Demo.entry "x" 5 0 None) 50 = Ok tr /\
    length tr = 7%nat /\ tr !! 6%nat = Some (PyFloat 9).
Proof.
  eexists. split; [vm_compute; reflexivity|].
  destruct (placement_frame Demo.lib
              {| font := Some {| ufo := Some "Font.ufo";
                                 transform := Some "1 0 0 1 0 0 9";
                                 version := Some 2 |};
                 svgs := None |}
              (Demo.entry "x" 5 0 None) 50 _ eq_refl)
    as (f & t & tr0 & e0 & f0 & lv & l & lf & bz & bf & Hf & Ht & Htr & _ & _
        & _ & _ & _ & _ & _ & _ & _ & Hlen & _ & Hi).
  injection Hf as <-. injection Ht as <-.
  vm_compute in Htr. injection Htr as <-.
  split; [exact Hlen|]. exact (Hi 6%nat ltac:(discriminate) ltac:(discriminate)).
Defined.

(** X10: a base transform of fewer than six coefficients ends the
    placement with an [IndexError]. *)
Theorem placement_IndexError (L : library) (cfg : configuration)
    (svg_config : svg_entry) (height : float) (f : font_section) (t : string)
    (tr0 : list pynum) (lv : pynum) (l bz : Z) (lf : float) :
  font cfg = Some f ->
  transform f = Some t ->
  transform_list L t = Ok tr0 ->
  (length tr0 < 6)%nat ->
  base_offset svg_config = Ok bz ->
  left svg_config = Some lv ->
  py_int lv = Ok l ->
  int_to_float l = Ok lf ->
  placement L cfg svg_config height = Raise IndexError.
Proof.
  intros Hf Ht Htr Hlen Hb Hlv Hl Hlf. unfold placement.
  rewrite Hf; cbn [getitem res_bind]. rewrite Ht; cbn [getitem res_bind].
  rewrite Htr; cbn [res_bind]. rewrite Hb; cbn [res_bind].
  unfold list_getitem at 1. destruct (tr0 !! 4%nat) as [t4|] eqn:H4;
    [|reflexivity].
  cbn [res_bind]. rewrite Hlv; cbn [getitem res_bind].
  rewrite Hl; cbn [res_bind].
  destruct (floats_lookup tr0 4 t4 (transform_list_floats L t tr0 Htr) H4)
    as [e0 ->].
  cbn [py_add]. rewrite Hlf; cbn [res_bind]. cbv zeta.
  unfold list_getitem. rewrite lookup_ge_None_2; [reflexivity|].
  rewrite length_insert. lia.
Qed.

Lemma placement_IndexError_witness :
  placement Demo.lib
    {| font := Some {| ufo := Some "Font.ufo"; transform := Some "1 0 0 1 0";
                       version := Some 2 |};
       svgs := None |}
    (Demo.entry "x" 5 0 None) 50 = Raise IndexError.
Proof.
  apply (placement_IndexError Demo.lib _ (Demo.entry "x" 5 0 None) 50
           {| ufo := Some "Font.ufo"; transform := Some "1 0 0 1 0";
              version := Some 2 |}
           "1 0 0 1 0"
           [PyFloat 1; PyFloat 0; PyFloat 0; PyFloat 1; PyFloat 0]
           (PyInt 5) 5 0 5);
    vm_compute; reflexivity.
Defined.

(* ===================================================================== *)
(** ** Every run, failing or not *)
(* ===================================================================== *)

Lemma bind_cases {A B} (c : prog A) (k : A -> prog B) w r w' :
  bind c k w = (r, w') ->
  (exists e, c w = (Raise e, w') /\ r = Raise e) \/
  (exists a w0, c w = (Ok a, w0) /\ k a w0 = (r, w')).
Proof.
  unfold bind. destruct (c w) as [[a|e] w0].
  - right. eauto.
  - intros [= <- <-]. left. eauto.
Qed.

(** A step that leaves the world alone either fails there or hands its
    value on in the same world. *)
Lemma bind_pure {A B} (c : prog A) (k : A -> prog B) w r w' :
  (forall r0 w0, c w = (r0, w0) -> w0 = w) ->
  bind c k w = (r, w') ->
  (exists e, r = Raise e /\ w' = w) \/ (exists a, k a w = (r, w')).
Proof.
  intros Hc H. apply bind_cases in H as [(e & H & ->)|(a & w0 & Ha & H)].
  - left. exists e. split; [reflexivity|]. exact (Hc _ _ H).
  - right. exists a. rewrite <- (Hc _ _ Ha). exact H.
Qed.

Lemma lift_pure {A} (r : res A) w r0 w0 : lift r w = (r0, w0) -> w0 = w.
Proof. intros [= _ <-]. reflexivity. Qed.

Lemma read_file_pure path w r0 w0 : read_file path w = (r0, w0) -> w0 = w.
Proof.
  unfold read_file. destruct (files w !! path); intros [= _ <-]; reflexivity.
Qed.

Lemma lib_read_pure {A} (f : gmap string string -> res A) w r0 w0 :
  lib_read f w = (r0, w0) -> w0 = w.
Proof. intros [= _ <-]. reflexivity. Qed.

Lemma read_then_pure {A} path (g : string -> res A) w r0 w0 :
  bind (read_file path) (fun s => lift (g s)) w = (r0, w0) -> w0 = w.
Proof.
  intros H. apply bind_pure in H as [(e & _ & ->)|(s & H)];
    [reflexivity | | apply read_file_pure].
  exact (lift_pure _ _ _ _ H).
Qed.

Lemma reraise_pure {A} (c : prog A) e w r0 w0 :
  (forall r1 w1, c w = (r1, w1) -> w1 = w) ->
  reraise c e w = (r0, w0) -> w0 = w.
Proof.
  intros Hc. unfold reraise.
  pose proof (Hc (fst (c w)) (snd (c w))) as Hc'.
  destruct (c w) as [[a|x] w1]; intros [= _ <-]; exact (Hc' eq_refl).
Qed.

(** The run before the lookup prints nothing and changes no file itself:
    the files it leaves are those of the start or those the writer's
    constructor returned. *)
Lemma prelude_effect (L : library) (opts : options) (w : world) r w' :
  prelude L opts w = (r, w') ->
  stdout w' = stdout w /\ readonly w' = readonly w /\
  (files w' = files w \/
   exists p r0, UFOWriter L p (files w) = (r0, files w')).
Proof.
  unfold prelude, getConfig, parseSvg. intros H.
  apply bind_pure in H as [(e & _ & ->)|(cfg & H)];
    [auto | | apply read_then_pure].
  apply bind_pure in H as [(e & _ & ->)|(root & H)];
    [auto | | apply read_then_pure].
  apply bind_pure in H as [(e & _ & ->)|(width & H)];
    [auto | | apply lift_pure].
  apply bind_pure in H as [(e & _ & ->)|(height & H)];
    [auto | | apply lift_pure].
  apply bind_pure in H as [(e & _ & ->)|(p & H)];
    [auto | | apply lift_pure].
  apply bind_pure in H as [(e & _ & ->)|([] & H)];
    [auto | | apply lib_read_pure].
  apply bind_cases in H as [(e & H & ->)|([] & w0 & Ha & H)].
  - unfold lib_write in H.
    destruct (UFOWriter L p (files w)) as [r0 fs] eqn:E.
    injection H as -> <-. simpl. eauto 6.
  - apply lib_write_ok in Ha as (fs & Ha & ->).
    assert (Hw : w' = with_files w fs).
    { apply bind_pure in H as [(e & _ & ->)|(info & H)];
        [reflexivity | | apply lib_read_pure].
      apply bind_pure in H as [(e & _ & ->)|(fam & H)];
        [reflexivity | | apply lift_pure].
      apply bind_pure in H as [(e & _ & ->)|(svg & H)];
        [reflexivity | | apply read_file_pure].
      injection H as _ <-. reflexivity. }
    subst w'. simpl. eauto 6.
Qed.

Lemma bind_reraise_read {A B} (path : string) (g : string -> res A) (e : exn)
    (k : A -> prog B) (w : world) :
  bind (reraise (bind (read_file path) (fun s => lift (g s))) e) k w =
  match files w !! path with
  | Some s => match g s with
              | Ok a => k a w
              | Raise _ => (Raise e, w)
              end
  | None => (Raise e, w)
  end.
Proof.
  unfold bind, reraise, read_file, lift.
  destruct (files w !! path) as [s|]; [|reflexivity].
  destruct (g s); reflexivity.
Qed.

Lemma bind_lib_read {A B} (f : gmap string string -> res A) (k : A -> prog B)
    (w : world) :
  bind (lib_read f) k w =
  match f (files w) with
  | Ok a => k a w
  | Raise e => (Raise e, w)
  end.
Proof. unfold bind, lib_read. destruct (f (files w)); reflexivity. Qed.

(** How a registration can end: the registry cannot be written and
    nothing happened; or the registry was written and the notice
    printed, and then either the lib could not be read or extended, or
    the lib writer ran. *)
Lemma register_cases (L : library) (ufo_font_path cpath family gname : string)
    (contents : gmap string string) (w : world) r w' :
  register L ufo_font_path cpath family gname contents w = (r, w') ->
  let w3 := {| files := <[cpath := plist_dumps L
                            (<[gname := gname +:+ ".glif"]> contents)]>
                          (files w);
               readonly := readonly w;
               stdout := stdout w ++ [Add family gname (gname +:+ ".glif")] |} in
  (w' = w /\ r = Raise (IOError cpath) /\ cpath ∈ readonly w) \/
  ((cpath ∉ readonly w) /\
   ((w' = w3 /\ exists e, r = Raise e) \/
    (exists lib_obj,
       writeLib L ufo_font_path lib_obj (files w3) = (r, files w') /\
       stdout w' = stdout w3 /\ readonly w' = readonly w3))).
Proof.
  intros H w3. unfold register in H. rewrite bind_write_file in H.
  destruct (decide (cpath ∈ readonly w)) as [Hro|Hro].
  { injection H as <- <-. left. auto. }
  right. split; [exact Hro|]. rewrite bind_print in H. subst w3.
  rewrite bind_lib_read in H.
  destruct (readLib L ufo_font_path _) as [lib_obj|e];
    [|injection H as <- <-; left; eauto].
  rewrite bind_lift in H.
  destruct (getitem "public.glyphOrder" (lib_obj !! "public.glyphOrder"))
    as [order|e]; [|injection H as <- <-; left; eauto].
  rewrite bind_lift in H.
  destruct order as [| |l|]; cbv beta iota in H;
    try (injection H as <- <-; left; eauto; fail).
  right. unfold lib_write in H.
  destruct (writeLib L ufo_font_path _ _) as [r0 fs] eqn:E.
  injection H as <- <-. eexists. split; [exact E|]. auto.
Qed.

(** How a conversion can end: it fails with the world as it was, or the
    glyph description was written and the notice printed, and then the
    run is over (known glyph) or goes on with the registration. *)
Lemma convert_cases (L : library) (opts : options) (cfg : configuration)
    (width height : float) (name ufo_font_path family svg : string)
    (infoObject : InfoObject) (svg_config : svg_entry) (w : world) r w' :
  convert L opts cfg width height name ufo_font_path family svg infoObject
    svg_config w = (r, w') ->
  (w' = w /\ exists e, r = Raise e) \/
  (exists gname text contents glif,
     glyph_name svg_config = Some gname /\
     files w !! contentsPlistPath ufo_font_path = Some text /\
     readPlist L text = Ok contents /\
     (output_file opts ufo_font_path gname ∉ readonly w) /\
     let w2 := {| files := <[output_file opts ufo_font_path gname := glif]>
                             (files w);
                  readonly := readonly w;
                  stdout := stdout w ++
                    [Convert family name
                       (output_file opts ufo_font_path gname)] |} in
     if bool_decide (is_Some (contents !! gname))
     then r = Ok tt /\ w' = w2
     else register L ufo_font_path (contentsPlistPath ufo_font_path) family
            gname contents w2 = (r, w')).
Proof.
  unfold convert. intros H.
  rewrite bind_lift in H. destruct (unicodeVal L svg_config) as [u|e];
    [|injection H as <- <-; left; eauto].
  rewrite bind_lift in H. destruct (glyphWidth width svg_config) as [gw|e];
    [|injection H as <- <-; left; eauto].
  rewrite bind_reraise_read in H.
  destruct (files w !! contentsPlistPath ufo_font_path) as [text|] eqn:Ht;
    [|injection H as <- <-; left; eauto].
  destruct (readPlist L text) as [contents|e] eqn:Hr;
    [|injection H as <- <-; left; eauto].
  rewrite bind_lift in H.
  destruct (glyph_name svg_config) as [gname|] eqn:Hn; cbn [getitem] in H;
    [|injection H as <- <-; left; eauto].
  rewrite bind_lift in H. destruct (placement L cfg svg_config height) as [tr|e];
    [|injection H as <- <-; left; eauto].
  rewrite bind_lift in H.
  destruct (make_glif L cfg svg_config infoObject svg gw u tr) as [glif|e];
    [|injection H as <- <-; left; eauto].
  rewrite bind_write_file in H.
  destruct (decide (output_file opts ufo_font_path gname ∈ readonly w))
    as [Hro|Hro]; [injection H as <- <-; left; eauto|].
  rewrite bind_print in H.
  right. exists gname, text, contents, glif.
  repeat (split; [auto; fail|]). cbv zeta.
  destruct (bool_decide (is_Some (contents !! gname))); [|exact H].
  injection H as <- <-. auto.
Qed.

(** A run either fails before the lookup, or skips, or converts. *)
Lemma main_cases (L : library) (opts : options) (w : world) r w' :
  main L opts w = (r, w') ->
  (exists e, prelude L opts w = (Raise e, w') /\ r = Raise e) \/
  (exists c w1,
     prelude L opts w = (Ok c, w1) /\
     ((r = Ok tt /\
       (forall svg_config,
          lookup_entry (ctx_config c) (ctx_name c) <> Ok svg_config) /\
       w' = {| files := files w1; readonly := readonly w1;
               stdout := stdout w1 ++ [Skip (ctx_name c)] |}) \/
      (exists svg_config,
         lookup_entry (ctx_config c) (ctx_name c) = Ok svg_config /\
         convert L opts (ctx_config c) (ctx_width c) (ctx_height c)
           (ctx_name c) (ctx_ufo c) (ctx_family c) (ctx_svg c) (ctx_info c)
           svg_config w1 = (r, w')))).
Proof.
  unfold main. intros H.
  apply bind_cases in H as [(e & H & ->)|(c & w1 & Hp & H)]; [left; eauto|].
  right. exists c, w1. split; [exact Hp|].
  destruct (lookup_entry (ctx_config c) (ctx_name c)) as [svg_config|e] eqn:E.
  - right. eauto.
  - left. apply lookup_entry_raise in E as [k ->].
    unfold print in H. injection H as <- <-.
    split; [reflexivity|]. split; [discriminate | reflexivity].
Qed.

(** X12: whatever the outcome, a run keeps what was printed before and
    adds nothing, or the skip notice alone (and then it succeeded), or
    the conversion notice, or the conversion notice followed by the
    registration notice of a file named after the glyph. *)
Theorem main_prints (L : library) (opts : options) (w : world) :
  exists l,
    stdout (snd (main L opts w)) = stdout w ++ l /\
    (l = [] \/
     (exists n, l = [Skip n] /\ fst (main L opts w) = Ok tt) \/
     (exists f n o, l = [Convert f n o]) \/
     (exists f n o g, l = [Convert f n o; Add f g (g +:+ ".glif")])).
Proof.
  destruct (main L opts w) as [r w'] eqn:H. cbn [fst snd].
  apply main_cases in H as [(e & Hp & ->)|(c & w1 & Hp & H)].
  { apply prelude_effect in Hp as (Hs & _). exists []. rewrite Hs, app_nil_r.
    auto. }
  apply prelude_effect in Hp as (Hs & _).
  destruct H as [(-> & _ & ->)|(svg_config & _ & H)].
  { exists [Skip (ctx_name c)]. cbn [stdout]. rewrite Hs. eauto 6. }
  apply convert_cases in H
    as [(-> & _)|(g & text & contents & glif & _ & _ & _ & _ & H)].
  { exists []. rewrite Hs, app_nil_r. auto. }
  cbv zeta in H. destruct (bool_decide (is_Some (contents !! g))).
  { destruct H as (_ & ->). eexists. cbn [stdout]. rewrite Hs.
    split; [reflexivity|]. eauto 8. }
  apply register_cases in H as [(-> & _)|(_ & [(-> & _)|(lib & _ & Hout & _)])].
  - eexists. cbn [stdout]. rewrite Hs. split; [reflexivity|]. eauto 8.
  - eexists. cbn [stdout]. rewrite Hs, <- app_assoc.
    split; [reflexivity|]. cbn [app]. eauto 10.
  - eexists. rewrite Hout. cbn [stdout]. rewrite Hs, <- app_assoc.
    split; [reflexivity|]. cbn [app]. eauto 10.
Qed.

Lemma is_empty_app_r (a b : string) :
  is_empty b = false -> is_empty (a +:+ b) = false.
Proof. destruct a; [rewrite append_nil_l; trivial | reflexivity]. Qed.

Lemma str_last_app (a b : string) :
  is_empty b = false -> str_last (a +:+ b) = str_last b.
Proof.
  intros Hb. induction a as [|c a IH]; [reflexivity|].
  rewrite append_cons. cbn [str_last]. rewrite IH.
  destruct b as [|x b]; [discriminate Hb|]. cbn [str_last].
  destruct (str_last b); reflexivity.
Qed.

(** X13: a path that the writers of ufoLib leave alone and that is
    neither the registry of a font nor an output path is never changed
    by a run, whatever its outcome: the script writes nowhere else. *)
Theorem untouched_files (L : library) (opts : options) (w : world)
    (p : string) :
  (forall ufo_font_path fs,
     snd (UFOWriter L ufo_font_path fs) !! p = fs !! p) ->
  (forall ufo_font_path lib_obj fs,
     snd (writeLib L ufo_font_path lib_obj fs) !! p = fs !! p) ->
  (forall ufo_font_path, p <> contentsPlistPath ufo_font_path) ->
  (forall ufo_font_path g, p <> output_file opts ufo_font_path g) ->
  files (snd (main L opts w)) !! p = files w !! p.
Proof.
  intros HW HL Hc Ho.
  assert (Hpre : forall r w1, prelude L opts w = (r, w1) ->
                              files w1 !! p = files w !! p).
  { intros r w1 H. apply prelude_effect in H as (_ & _ & [->|(u & r0 & H)]);
      [reflexivity|].
    rewrite <- (HW u (files w)), H. reflexivity. }
  destruct (main L opts w) as [r w'] eqn:H. cbn [snd].
  apply main_cases in H as [(e & Hp & ->)|(c & w1 & Hp & H)].
  { exact (Hpre _ _ Hp). }
  rewrite <- (Hpre _ _ Hp).
  destruct H as [(_ & _ & ->)|(svg_config & _ & H)]; [reflexivity|].
  apply convert_cases in H
    as [(-> & _)|(g & text & contents & glif & _ & _ & _ & _ & H)];
    [reflexivity|].
  cbv zeta in H.
  assert (H2 : forall fs : gmap string string,
            <[output_file opts (ctx_ufo c) g := glif]> fs !! p = fs !! p).
  { intros fs. apply lookup_insert_ne. intros E. exact (Ho _ _ (eq_sym E)). }
  destruct (bool_decide (is_Some (contents !! g))).
  { destruct H as (_ & ->). apply H2. }
  assert (H3 : forall (x : string) (fs : gmap string string),
            <[contentsPlistPath (ctx_ufo c) := x]> fs !! p = fs !! p).
  { intros x fs. apply lookup_insert_ne. intros E. exact (Hc _ (eq_sym E)). }
  apply register_cases in H as [(-> & _)|(_ & [(-> & _)|(lib & H & _)])].
  - apply H2.
  - cbn [files]. rewrite H3. apply H2.
  - cbn [files] in H. pose proof (HL (ctx_ufo c) lib) as HL'.
    specialize (HL' (<[contentsPlistPath (ctx_ufo c) :=
                         plist_dumps L (<[g := g +:+ ".glif"]> contents)]>
                       (<[output_file opts (ctx_ufo c) g := glif]>
                          (files w1)))).
    rewrite H in HL'. cbn [snd] in HL'. rewrite HL', H3. apply H2.
Qed.

(** The outline and the mapping of the sample survive the run that
    registers a glyph. *)
Lemma untouched_files_witness :
  files (snd (main Demo.lib (Demo.run "svgs/ka.svg") Demo.start))
    !! "svgs/ka.svg" = Some "svg 100px 200px"%string.
Proof.
  rewrite (untouched_files Demo.lib (Demo.run "svgs/ka.svg") Demo.start
             "svgs/ka.svg").
  - reflexivity.
  - intros u fs. reflexivity.
  - intros u lib fs. cbn [writeLib Demo.lib].
    destruct (lib !! "public.glyphOrder") as [[| |l|]|]; try reflexivity.
    cbn [snd]. apply lookup_insert_ne. intros E.
    apply (f_equal str_last) in E.
    rewrite str_last_app in E by reflexivity.
    vm_compute in E. discriminate E.
  - intros u E. apply (f_equal str_last) in E. unfold contentsPlistPath in E.
    rewrite str_last_app in E by reflexivity.
    vm_compute in E. discriminate E.
  - intros u g E. apply (f_equal str_last) in E.
    unfold output_file in E. cbn [outfile Demo.run] in E.
    rewrite !str_last_app in E
      by (repeat apply is_empty_app_r; reflexivity).
    vm_compute in E. discriminate E.
Defined.

(* ===================================================================== *)
(** ** Failing runs *)
(* ===================================================================== *)

(** X11: a missing mapping document, a mapping the YAML reader rejects
    and a missing outline each end the run with that exception before
    anything is written or printed. *)
Theorem missing_inputs (L : library) (opts : options) (w : world) :
  (files w !! config opts = None ->
   main L opts w = (Raise (IOError (config opts)), w)) /\
  (forall ytext e,
     files w !! config opts = Some ytext -> yaml_load L ytext = Raise e ->
     main L opts w = (Raise e, w)) /\
  (forall ytext cfg,
     files w !! config opts = Some ytext -> yaml_load L ytext = Ok cfg ->
     files w !! infile opts = None ->
     main L opts w = (Raise (IOError (infile opts)), w)).
Proof.
  split; [|split].
  - intros H. apply main_prelude_raise. unfold prelude. apply bind_raise.
    unfold getConfig, bind, read_file. rewrite H. reflexivity.
  - intros ytext e Hy He. apply main_prelude_raise. unfold prelude.
    apply bind_raise. unfold getConfig, bind, read_file, lift.
    rewrite Hy, He. reflexivity.
  - intros ytext cfg Hy Hc Hs. apply main_prelude_raise. unfold prelude.
    rewrite (bind_eq _ _ w cfg w).
    2:{ unfold getConfig, bind, read_file, lift. rewrite Hy, Hc.
        reflexivity. }
    apply bind_raise. unfold parseSvg, bind, read_file. rewrite Hs.
    reflexivity.
Qed.

(** The conversion up to the registry, when its first steps succeed. *)
Lemma convert_registry (L : library) (opts : options) (cfg : configuration)
    (width height : float) (name ufo_font_path family svg : string)
    (infoObject : InfoObject) (svg_config : svg_entry) (w : world) :
  (forall e, unicodeVal L svg_config = Raise e ->
     convert L opts cfg width height name ufo_font_path family svg infoObject
       svg_config w = (Raise e, w)) /\
  (forall u e, unicodeVal L svg_config = Ok u ->
     glyphWidth width svg_config = Raise e ->
     convert L opts cfg width height name ufo_font_path family svg infoObject
       svg_config w = (Raise e, w)) /\
  (forall u gw, unicodeVal L svg_config = Ok u ->
     glyphWidth width svg_config = Ok gw ->
     (files w !! contentsPlistPath ufo_font_path = None \/
      exists text e, files w !! contentsPlistPath ufo_font_path = Some text /\
                     readPlist L text = Raise e) ->
     convert L opts cfg width height name ufo_font_path family svg infoObject
       svg_config w =
     (Raise (UFOLibError ("The file " +:+ contentsPlistPath ufo_font_path
                          +:+ " could not be read.")), w)).
Proof.
  unfold convert. split; [|split].
  - intros e Hu. rewrite bind_lift, Hu. reflexivity.
  - intros u e Hu Hg. rewrite bind_lift, Hu, bind_lift, Hg. reflexivity.
  - intros u gw Hu Hg Hreg. rewrite bind_lift, Hu, bind_lift, Hg.
    rewrite bind_reraise_read.
    destruct Hreg as [->|(text & e & -> & ->)]; reflexivity.
Qed.

(** The world in which the lookup takes place: the one of the start
    with the files the writer's construction left. *)
Lemma prelude_world (L : library) (opts : options) (w w1 : world)
    (c : context) :
  prelude L opts w = (Ok c, w1) ->
  w1 = {| files := snd (UFOWriter L (ctx_ufo c) (files w));
          readonly := readonly w; stdout := stdout w |}.
Proof.
  intros Hp.
  destruct (prelude_ok L opts w c w1 Hp)
    as (yt & root & fs1 & f & _ & _ & _ & _ & _ & _ & _ & _ & _ & Hw & _ & _ & _
        & ->).
  rewrite Hw. reflexivity.
Qed.

(** X15: when the registry of the font is missing or cannot be parsed,
    a run that got as far as reading it ends with the [UFOLibError] that
    names the file; nothing was printed, and the files are those the
    construction of the UFO writer left: the script wrote none. *)
Theorem registry_unreadable (L : library) (opts : options) (w w1 : world)
    (c : context) (svg_config : svg_entry) (u : option (list Z)) (gw : pynum) :
  prelude L opts w = (Ok c, w1) ->
  lookup_entry (ctx_config c) (ctx_name c) = Ok svg_config ->
  unicodeVal L svg_config = Ok u ->
  glyphWidth (ctx_width c) svg_config = Ok gw ->
  let constructed := snd (UFOWriter L (ctx_ufo c) (files w)) in
  (constructed !! contentsPlistPath (ctx_ufo c) = None \/
   exists text e, constructed !! contentsPlistPath (ctx_ufo c) = Some text /\
                  readPlist L text = Raise e) ->
  main L opts w =
  (Raise (UFOLibError ("The file " +:+ contentsPlistPath (ctx_ufo c)
                       +:+ " could not be read.")),
   {| files := constructed; readonly := readonly w; stdout := stdout w |}).
Proof.
  intros Hp Hl Hu Hg constructed Hreg.
  rewrite (main_entry L opts w c w1 svg_config Hp Hl).
  rewrite (prelude_world L opts w w1 c Hp). fold constructed.
  destruct (convert_registry L opts (ctx_config c) (ctx_width c)
              (ctx_height c) (ctx_name c) (ctx_ufo c) (ctx_family c)
              (ctx_svg c) (ctx_info c) svg_config
              {| files := constructed; readonly := readonly w;
                 stdout := stdout w |}) as (_ & _ & H).
  exact (H u gw Hu Hg Hreg).
Qed.

(** The sample font without its registry, under a writer whose
    construction rewrites [metainfo.plist]: that file is the only one
    that differs from the start. *)
Lemma registry_unreadable_witness :
  main Demo3.lib (Demo.run "svgs/ka.svg") Demo2.no_registry =
  (Raise (UFOLibError
            "The file Font.ufo/glyphs/contents.plist could not be read."),
   {| files := <["Font.ufo/metainfo.plist" := "org.robofab.ufoLib 3"]>
                 (files Demo2.no_registry);
      readonly := ∅; stdout := [] |}).
Proof.
  apply (registry_unreadable Demo3.lib (Demo.run "svgs/ka.svg")
           Demo2.no_registry
           {| files := <["Font.ufo/metainfo.plist" :=
                           "org.robofab.ufoLib 3"]> (files Demo2.no_registry);
              readonly := ∅; stdout := [] |}
           {| ctx_config := Demo.mapping; ctx_width := 100;
              ctx_height := 200; ctx_name := "ka"; ctx_ufo := "Font.ufo";
              ctx_info := {| familyName := Some "Gayathri";
                             unitsPerEm := Some (PyInt 1000) |};
              ctx_family := "Gayathri"; ctx_svg := "svg 100px 200px" |}
           (Demo.entry "uni0041" 10 10 (Some 0)) None (PyFloat 120)).
  - vm_compute; reflexivity.
  - vm_compute; reflexivity.
  - reflexivity.
  - vm_compute; reflexivity.
  - left. vm_compute; reflexivity.
Defined.

(** X17: for an entry whose code points, if it has any, are readable,
    a missing [left], or a missing [right] beside a usable [left], ends
    the run with the [KeyError] of that key; nothing was printed, and
    the files are those the construction of the UFO writer left: the
    script wrote none. *)
Theorem missing_bearing (L : library) (opts : options) (w w1 : world)
    (c : context) (svg_config : svg_entry) (u : option (list Z)) :
  prelude L opts w = (Ok c, w1) ->
  lookup_entry (ctx_config c) (ctx_name c) = Ok svg_config ->
  unicodeVal L svg_config = Ok u ->
  let left_as_is := {| files := snd (UFOWriter L (ctx_ufo c) (files w));
                       readonly := readonly w; stdout := stdout w |} in
  (left svg_config = None ->
   main L opts w = (Raise (KeyError "left"), left_as_is)) /\
  (forall lv l lf,
     left svg_config = Some lv -> py_int lv = Ok l ->
     int_to_float l = Ok lf -> right svg_config = None ->
     main L opts w = (Raise (KeyError "right"), left_as_is)).
Proof.
  intros Hp Hl Hu left_as_is.
  rewrite (main_entry L opts w c w1 svg_config Hp Hl).
  rewrite (prelude_world L opts w w1 c Hp). fold left_as_is.
  destruct (convert_registry L opts (ctx_config c) (ctx_width c)
              (ctx_height c) (ctx_name c) (ctx_ufo c) (ctx_family c)
              (ctx_svg c) (ctx_info c) svg_config left_as_is) as (_ & Hg & _).
  split.
  - intros Hn. apply (Hg u _ Hu). unfold glyphWidth. rewrite Hn. reflexivity.
  - intros lv l lf Hlv Hli Hlf Hn. apply (Hg u _ Hu). unfold glyphWidth.
    rewrite Hlv; cbn [getitem res_bind]. rewrite Hli; cbn [res_bind py_add].
    rewrite Hlf; cbn [res_bind]. rewrite Hn. reflexivity.
Qed.

Lemma missing_bearing_witness :
  main Demo2.lib (Demo.run "svgs/ka.svg") Demo2.start
    = (Raise (KeyError "left"), Demo2.start) /\
  main Demo2.lib (Demo.run "svgs/kha.svg") Demo2.start
    = (Raise (KeyError "right"), Demo2.start).
Proof.
  split.
  - destruct (missing_bearing Demo2.lib (Demo.run "svgs/ka.svg")
                Demo2.start Demo2.start
                {| ctx_config := Demo2.mapping; ctx_width := 100;
                   ctx_height := 200; ctx_name := "ka";
                   ctx_ufo := "Font.ufo";
                   ctx_info := {| familyName := Some "Gayathri";
                                  unitsPerEm := Some (PyInt 1000) |};
                   ctx_family := "Gayathri";
                   ctx_svg := "svg 100px 200px" |}
                {| glyph_name := Some "uni0041"; left := None;
                   right := Some (PyInt 10); base := None;
                   unicode := None |} None) as [H _].
    + vm_compute; reflexivity.
    + vm_compute; reflexivity.
    + reflexivity.
    + exact (H eq_refl).
  - destruct (missing_bearing Demo2.lib (Demo.run "svgs/kha.svg")
                Demo2.start Demo2.start
                {| ctx_config := Demo2.mapping; ctx_width := 100;
                   ctx_height := 200; ctx_name := "kha";
                   ctx_ufo := "Font.ufo";
                   ctx_info := {| familyName := Some "Gayathri";
                                  unitsPerEm := Some (PyInt 1000) |};
                   ctx_family := "Gayathri";
                   ctx_svg := "svg 100px 200px" |}
                {| glyph_name := Some "kha"; left := Some (PyInt 10);
                   right := None; base := None; unicode := None |} None)
      as [_ H].
    + vm_compute; reflexivity.
    + vm_compute; reflexivity.
    + reflexivity.
    + apply (H (PyInt 10) 10 10%float); vm_compute; reflexivity.
Defined.

(** X16: when the output path cannot be written, the run fails and
    leaves the world as it was before the conversion: no notice, no
    registry entry, no glyph order entry. *)
Theorem locked_output (L : library) (opts : options) (w w1 : world)
    (c : context) (svg_config : svg_entry) (g : string) :
  prelude L opts w = (Ok c, w1) ->
  lookup_entry (ctx_config c) (ctx_name c) = Ok svg_config ->
  glyph_name svg_config = Some g ->
  output_file opts (ctx_ufo c) g ∈ readonly w1 ->
  snd (main L opts w) = w1 /\ exists e, fst (main L opts w) = Raise e.
Proof.
  intros Hp Hl Hn Hro. rewrite (main_entry L opts w c w1 svg_config Hp Hl).
  destruct (convert L opts _ _ _ _ _ _ _ _ svg_config w1) as [r w'] eqn:H.
  cbn [fst snd].
  apply convert_cases in H
    as [(-> & e & ->)|(g' & text & contents & glif & Hn' & _ & _ & Hro' & _)];
    [eauto|].
  rewrite Hn in Hn'. injection Hn' as <-. destruct (Hro' Hro).
Qed.

Lemma locked_output_witness :
  main Demo.lib (Demo.run "svgs/ga.svg")
    (Demo2.locked "Font.ufo/glyphs/ga.glif")
  = (Raise (IOError "Font.ufo/glyphs/ga.glif"),
     Demo2.locked "Font.ufo/glyphs/ga.glif").
Proof.
  destruct (locked_output Demo.lib (Demo.run "svgs/ga.svg")
              (Demo2.locked "Font.ufo/glyphs/ga.glif")
              (Demo2.locked "Font.ufo/glyphs/ga.glif")
              {| ctx_config := Demo.mapping; ctx_width := 60;
                 ctx_height := 80; ctx_name := "ga"; ctx_ufo := "Font.ufo";
                 ctx_info := {| familyName := Some "Gayathri";
                                unitsPerEm := Some (PyInt 1000) |};
                 ctx_family := "Gayathri"; ctx_svg := "svg 60px 80px" |}
              (Demo.entry "ga" 5 0 None) "ga") as [Hw [e He]].
  - vm_compute; reflexivity.
  - vm_compute; reflexivity.
  - reflexivity.
  - vm_compute; reflexivity.
  - destruct (main Demo.lib (Demo.run "svgs/ga.svg")
                (Demo2.locked "Font.ufo/glyphs/ga.glif")) as [r w'] eqn:E.
    cbn [fst snd] in *. subst w'. f_equal.
    assert (Hr : r = fst (main Demo.lib (Demo.run "svgs/ga.svg")
                            (Demo2.locked "Font.ufo/glyphs/ga.glif")))
      by (rewrite E; reflexivity).
    rewrite Hr. vm_compute. reflexivity.
Defined.

(* ===================================================================== *)
(** ** Registration: no rollback, no second entry *)
(* ===================================================================== *)

(** X14: the registration does not roll back.  When it fails although
    the registry could be written, the registry file already holds the
    mapping for the new name and the notice is printed; the files are
    then exactly those, unless the failure is the lib writer's own. *)
Theorem registration_not_atomic (L : library)
    (ufo_font_path cpath family gname : string)
    (contents : gmap string string) (w w' : world) (e : exn) :
  (cpath ∉ readonly w) ->
  register L ufo_font_path cpath family gname contents w = (Raise e, w') ->
  let written := <[cpath := plist_dumps L
                     (<[gname := gname +:+ ".glif"]> contents)]> (files w) in
  stdout w' = stdout w ++ [Add family gname (gname +:+ ".glif")] /\
  (files w' = written \/
   exists lib_obj,
     writeLib L ufo_font_path lib_obj written = (Raise e, files w')).
Proof.
  intros Hro H written. apply register_cases in H
    as [(_ & _ & Hin)|(_ & [(-> & _)|(lib & H & Hout & _)])].
  - destruct (Hro Hin).
  - split; [reflexivity|]. left. reflexivity.
  - split; [exact Hout|]. right. exists lib. exact H.
Qed.

(** The sample font without its [lib.plist]: the registration fails
    once the registry is written. *)
Lemma registration_not_atomic_witness :
  exists w',
    register Demo.lib "Font.ufo" "Font.ufo/glyphs/contents.plist" "Gayathri"
      "uni0041" (<["ga" := "ga.glif"]> ∅) Demo2.no_lib
    = (Raise (KeyError "public.glyphOrder"), w') /\
    stdout w' = [Add "Gayathri" "uni0041" "uni0041.glif"] /\
    files w' !! "Font.ufo/glyphs/contents.plist"
      = Some "ga ga.glif uni0041 uni0041.glif"%string.
Proof.
  eexists. split; [vm_compute; reflexivity|].
  destruct (registration_not_atomic Demo.lib "Font.ufo"
              "Font.ufo/glyphs/contents.plist" "Gayathri" "uni0041"
              (<["ga" := "ga.glif"]> ∅) Demo2.no_lib _
              (KeyError "public.glyphOrder")
              (not_elem_of_empty _) eq_refl) as [Hout _].
  split; [exact Hout | vm_compute; reflexivity].
Defined.

(** X19: on a font whose lib has no [public.glyphOrder], registering a
    glyph writes the registry, prints the notice and then fails with the
    [KeyError] of that key: the lib is not written. *)
Theorem registration_without_order (L : library)
    (ufo_font_path cpath family gname : string)
    (contents : gmap string string) (w : world)
    (lib_obj : gmap string plist) :
  (cpath ∉ readonly w) ->
  let written := <[cpath := plist_dumps L
                     (<[gname := gname +:+ ".glif"]> contents)]> (files w) in
  readLib L ufo_font_path written = Ok lib_obj ->
  lib_obj !! "public.glyphOrder" = None ->
  register L ufo_font_path cpath family gname contents w =
  (Raise (KeyError "public.glyphOrder"),
   {| files := written; readonly := readonly w;
      stdout := stdout w ++ [Add family gname (gname +:+ ".glif")] |}).
Proof.
  intros Hro written Hl Hk. unfold register. rewrite bind_write_file.
  destruct (decide (cpath ∈ readonly w)) as [Hin|_]; [destruct (Hro Hin)|].
  rewrite bind_print, bind_lib_read. cbn [files with_files].
  fold written. rewrite Hl, bind_lift, Hk. reflexivity.
Qed.

(** The sample font without its [lib.plist]: the run on the new glyph
    [uni0041] fails, and leaves the glyph in the registry. *)
Lemma registration_without_order_witness :
  let r := main Demo.lib (Demo.run "svgs/ka.svg") Demo2.no_lib in
  fst r = Raise (KeyError "public.glyphOrder") /\
  files (snd r) !! "Font.ufo/glyphs/contents.plist"
    = Some "ga ga.glif uni0041 uni0041.glif"%string /\
  files (snd r) !! "Font.ufo/lib.plist" = None /\
  register Demo.lib "Font.ufo" "Font.ufo/glyphs/contents.plist" "Gayathri"
    "uni0041" (<["ga" := "ga.glif"]> ∅) Demo2.no_lib
  = (Raise (KeyError "public.glyphOrder"),
     {| files := <["Font.ufo/glyphs/contents.plist" :=
                     "ga ga.glif uni0041 uni0041.glif"]> (files Demo2.no_lib);
        readonly := ∅;
        stdout := [Add "Gayathri" "uni0041" "uni0041.glif"] |}).
Proof.
  split; [vm_compute; reflexivity|]. split; [vm_compute; reflexivity|].
  split; [vm_compute; reflexivity|].
  rewrite (registration_without_order Demo.lib "Font.ufo"
             "Font.ufo/glyphs/contents.plist" "Gayathri" "uni0041"
             (<["ga" := "ga.glif"]> ∅) Demo2.no_lib ∅).
  - vm_compute; reflexivity.
  - apply not_elem_of_empty.
  - vm_compute; reflexivity.
  - reflexivity.
Defined.



(* ===================================================================== *)
(** ** Font metadata that is not there *)
(* ===================================================================== *)

Lemma bind_read_lift {A B} (path : string) (g : string -> res A)
    (k : A -> prog B) (w : world) :
  bind (bind (read_file path) (fun s => lift (g s))) k w =
  match files w !! path with
  | Some s => match g s with
              | Ok a => k a w
              | Raise e => (Raise e, w)
              end
  | None => (Raise (IOError path), w)
  end.
Proof.
  unfold bind, read_file, lift.
  destruct (files w !! path) as [s|]; [|reflexivity].
  destruct (g s); reflexivity.
Qed.

Lemma bind_read_file {B} (path : string) (k : string -> prog B) (w : world) :
  bind (read_file path) k w =
  match files w !! path with
  | Some s => k s w
  | None => (Raise (IOError path), w)
  end.
Proof.
  unfold bind, read_file. destruct (files w !! path); reflexivity.
Qed.

Lemma bind_lib_write {A B}
    (f : gmap string string -> res A * gmap string string)
    (k : A -> prog B) (w : world) :
  bind (lib_write f) k w =
  match f (files w) with
  | (Ok a, fs) => k a (with_files w fs)
  | (Raise e, fs) => (Raise e, with_files w fs)
  end.
Proof.
  unfold bind, lib_write. destruct (f (files w)) as [[a|e] fs]; reflexivity.
Qed.

(** X21: a font whose info has no [familyName] ends every run with the
    [AttributeError] of that attribute once the font is opened, before
    the entry of the outline is looked up: no skip notice is printed
    even for an outline without entry. *)
Theorem font_without_family_name (L : library) (opts : options) (w : world)
    (ytext text p : string) (cfg : configuration) (root : element)
    (wd ht : float) (f : font_section) (fs1 : gmap string string)
    (infoObject : InfoObject) :
  files w !! config opts = Some ytext ->
  yaml_load L ytext = Ok cfg ->
  files w !! infile opts = Some text ->
  etree_parse L text = Ok root ->
  svg_dimension L root "width" = Ok wd ->
  svg_dimension L root "height" = Ok ht ->
  font cfg = Some f ->
  ufo f = Some p ->
  UFOReader L p (files w) = Ok tt ->
  UFOWriter L p (files w) = (Ok tt, fs1) ->
  readInfo L p fs1 = Ok infoObject ->
  familyName infoObject = None ->
  main L opts w = (Raise (AttributeError "familyName"), with_files w fs1).
Proof.
  intros Hy Hc Ht Hr Hw Hh Hf Hu Hrd Hwr Hi Hn.
  apply main_prelude_raise. unfold prelude, getConfig, parseSvg.
  rewrite bind_read_lift, Hy, Hc. rewrite bind_read_lift, Ht, Hr.
  rewrite bind_lift, Hw, bind_lift, Hh, bind_lift, Hf.
  cbn [getitem res_bind]. rewrite Hu. cbn [getitem].
  rewrite bind_lib_read, Hrd, bind_lib_write, Hwr, bind_lib_read.
  cbn [files with_files]. rewrite Hi, bind_lift, Hn. reflexivity.
Qed.

(** The outline [nya.svg] has no entry, yet on a font without family
    name the run fails instead of skipping. *)
Lemma font_without_family_name_witness :
  main Demo.lib (Demo.run "svgs/nya.svg") Demo2.no_family
  = (Raise (AttributeError "familyName"), Demo2.no_family).
Proof.
  apply (font_without_family_name Demo.lib (Demo.run "svgs/nya.svg")
           Demo2.no_family "mapping" "svg 100px 200px" "Font.ufo"
           Demo.mapping
           {| tag := "svg";
              attrib := <["width" := "100px"]> (<["height" := "200px"]> ∅) |}
           100 200
           {| ufo := Some "Font.ufo"; transform := Some "1 0 0 1 0 0";
              version := Some 2 |}
           (files Demo2.no_family)
           {| familyName := None; unitsPerEm := None |});
    vm_compute; reflexivity.
Defined.

(** X20: when the font info has no [unitsPerEm], or the [font] section
    no [version], a run that read code points, width, registry and
    placement fails with the [AttributeError], respectively the
    [KeyError], of that name: the glyph is not generated, nothing was
    printed, and the files are those the construction of the UFO writer
    left: the script wrote none. *)
Theorem missing_metadata (L : library) (opts : options) (w w1 : world)
    (c : context) (svg_config : svg_entry) (u : option (list Z)) (gw : pynum)
    (text gname : string) (contents : gmap string string) (tr : list pynum) :
  prelude L opts w = (Ok c, w1) ->
  lookup_entry (ctx_config c) (ctx_name c) = Ok svg_config ->
  unicodeVal L svg_config = Ok u ->
  glyphWidth (ctx_width c) svg_config = Ok gw ->
  let constructed := snd (UFOWriter L (ctx_ufo c) (files w)) in
  let left_as_is := {| files := constructed; readonly := readonly w;
                       stdout := stdout w |} in
  constructed !! contentsPlistPath (ctx_ufo c) = Some text ->
  readPlist L text = Ok contents ->
  glyph_name svg_config = Some gname ->
  placement L (ctx_config c) svg_config (ctx_height c) = Ok tr ->
  (unitsPerEm (ctx_info c) = None ->
   main L opts w = (Raise (AttributeError "unitsPerEm"), left_as_is)) /\
  (forall h f,
     unitsPerEm (ctx_info c) = Some h -> font (ctx_config c) = Some f ->
     version f = None ->
     main L opts w = (Raise (KeyError "version"), left_as_is)).
Proof.
  intros Hp Hl Hu Hg constructed left_as_is Ht Hr Hn Htr.
  rewrite (main_entry L opts w c w1 svg_config Hp Hl).
  rewrite (prelude_world L opts w w1 c Hp). fold constructed left_as_is.
  unfold convert. rewrite bind_lift, Hu, bind_lift, Hg, bind_reraise_read.
  change (files left_as_is) with constructed.
  rewrite Ht, Hr, bind_lift, Hn. cbn [getitem].
  rewrite bind_lift, Htr, bind_lift. unfold make_glif.
  rewrite Hn. cbn [getitem res_bind]. split.
  - intros ->. reflexivity.
  - intros h f Hh Hf Hv. rewrite Hh. cbn [getattr res_bind].
    rewrite Hf. cbn [getitem res_bind]. rewrite Hv. reflexivity.
Qed.

(** The sample font with an info that has no units per em, under a
    writer whose construction rewrites [metainfo.plist]. *)
Lemma missing_metadata_witness :
  main Demo3.lib (Demo.run "svgs/ka.svg") Demo2.no_upm
  = (Raise (AttributeError "unitsPerEm"),
     {| files := <["Font.ufo/metainfo.plist" := "org.robofab.ufoLib 3"]>
                   (files Demo2.no_upm);
        readonly := ∅; stdout := [] |}).
Proof.
  destruct (missing_metadata Demo3.lib (Demo.run "svgs/ka.svg")
              Demo2.no_upm
              {| files := <["Font.ufo/metainfo.plist" :=
                              "org.robofab.ufoLib 3"]> (files Demo2.no_upm);
                 readonly := ∅; stdout := [] |}
              {| ctx_config := Demo.mapping; ctx_width := 100;
                 ctx_height := 200; ctx_name := "ka"; ctx_ufo := "Font.ufo";
                 ctx_info := {| familyName := Some "Gayathri";
                                unitsPerEm := None |};
                 ctx_family := "Gayathri"; ctx_svg := "svg 100px 200px" |}
              (Demo.entry "uni0041" 10 10 (Some 0)) None (PyFloat 120)
              "ga ga.glif" "uni0041" (<["ga" := "ga.glif"]> ∅)
              [PyFloat 1; PyFloat 0; PyFloat 0; PyFloat 1; PyFloat 10;
               PyFloat 200]) as [H _].
  - vm_compute; reflexivity.
  - vm_compute; reflexivity.
  - reflexivity.
  - vm_compute; reflexivity.
  - vm_compute; reflexivity.
  - vm_compute; reflexivity.
  - reflexivity.
  - vm_compute; reflexivity.
  - exact (H eq_refl).
Defined.
